(** * Circulation core of the library system: books, lending, reservations

    A shallow embedding of [LibrarySystem/models/books.py],
    [LibrarySystem/models/lending.py], [LibrarySystem/models/reservations.py],
    [LibrarySystem/models/users.py] and of the part of
    [LibrarySystem/utils/db_connection.py] they go through.

    Conventions of the embedding.
    - The global [db_manager] is an explicit [state]; every operation takes
      the state and returns the state it leaves behind.
    - [datetime.now()] is an explicit argument [now]; a [datetime] is the
      number of microseconds since 0001-01-01T00:00:00.
    - Python [int] is [Z]; the [float] amounts (fines, rates) are exact
      rationals [Q], so no rounding is modelled.
    - SQL text columns restricted by a CHECK constraint are enumerations.
    - Each SQL statement of the source is one definition of module [Db],
      named after the statement; tables with an INTEGER PRIMARY KEY that the
      code only reads by key are [gmap Z row], the tables the code scans in
      order are association lists in rowid order.
    - Columns that none of the embedded methods reads (author, isbn, email,
      password_hash, ...) are left out of the rows.
    - Statements are well formed, so a statement fails only when the
      manager is not connected or a NOT NULL column would receive NULL.
      Of the foreign keys only the refusal to delete a book that a lending
      or reservation row refers to is modelled; the inserts and updates of
      the embedded methods write keys of rows they have just read. *)

From Stdlib Require Import ZArith QArith String List Lia DecimalString.
From stdpp Require Import base option list gmap fin_maps.

Local Open Scope Z_scope.

(** ** Time *)

Definition datetime := Z.
Definition timedelta := Z.

Definition us_per_day : Z := 86400000000.

(** [timedelta(days=n)] *)
Definition timedelta_days (n : Z) : timedelta := n * us_per_day.

(** [td.days]: timedeltas are normalised with a non-negative remainder, so
    the attribute is the floor of the quotient. *)
Definition td_days (td : timedelta) : Z := td / us_per_day.

Definition is_leap (y : Z) : bool :=
  ((y mod 4 =? 0) && negb (y mod 100 =? 0)) || (y mod 400 =? 0).

Definition days_before_year (y : Z) : Z :=
  let p := y - 1 in p * 365 + p / 4 - p / 100 + p / 400.

Definition days_before_month (y m : Z) : Z :=
  nth (Z.to_nat (m - 1)) [0; 31; 59; 90; 120; 151; 181; 212; 243; 273; 304; 334] 0
  + (if (2 <? m) && is_leap y then 1 else 0).

(** [datetime(y, m, d)]: midnight of a calendar day. *)
Definition date (y m d : Z) : datetime :=
  (days_before_year y + days_before_month y m + d - 1) * us_per_day.

(** ** The database manager (db_connection.py) *)

Module Db.

Inductive lending_status := Active | Returned | Overdue.
Inductive reservation_status := Pending | Fulfilled | Cancelled.
Inductive notification_type := Info | Warning | OverdueNotice | ReservationNotice.

Definition lending_status_eqb (a b : lending_status) : bool :=
  match a, b with
  | Active, Active | Returned, Returned | Overdue, Overdue => true
  | _, _ => false
  end.

Definition reservation_status_eqb (a b : reservation_status) : bool :=
  match a, b with
  | Pending, Pending | Fulfilled, Fulfilled | Cancelled, Cancelled => true
  | _, _ => false
  end.

Record book_row := {
  b_title : string;
  b_total_copies : Z;
  b_available_copies : Z
}.

Record user_row := { u_is_active : bool }.

Record lending_row := {
  l_book_id : Z;
  l_user_id : Z;
  l_issue_date : datetime;
  l_due_date : datetime;
  l_return_date : option datetime;
  l_fine_amount : Q;
  l_status : lending_status
}.

Record reservation_row := {
  r_book_id : Z;
  r_user_id : Z;
  r_reservation_date : datetime;
  r_status : reservation_status;
  r_notification_sent : bool
}.

Record notification_row := {
  n_user_id : Z;
  n_message : string;
  n_type : notification_type
}.

(** The process state the circulation code reads and writes: the manager's
    [connected] flag, whether a top-level package [models] can be imported
    (the module search path), the tables, the AUTOINCREMENT counters of
    [sqlite_sequence] and the rowid of the last INSERT. *)
Record state := {
  connected : bool;
  models_importable : bool;
  books : gmap Z book_row;
  users : gmap Z user_row;
  lending : gmap Z lending_row;
  lending_seq : Z;
  reservations : list (Z * reservation_row);
  reservations_seq : Z;
  notifications : list (Z * notification_row);
  notifications_seq : Z;
  lastrowid : Z
}.

Definition set_books (v : gmap Z book_row) (s : state) : state :=
  {| connected := connected s; models_importable := models_importable s;
     books := v; users := users s;
     lending := lending s; lending_seq := lending_seq s;
     reservations := reservations s; reservations_seq := reservations_seq s;
     notifications := notifications s; notifications_seq := notifications_seq s;
     lastrowid := lastrowid s |}.

Definition set_lending (v : gmap Z lending_row) (s : state) : state :=
  {| connected := connected s; models_importable := models_importable s;
     books := books s; users := users s;
     lending := v; lending_seq := lending_seq s;
     reservations := reservations s; reservations_seq := reservations_seq s;
     notifications := notifications s; notifications_seq := notifications_seq s;
     lastrowid := lastrowid s |}.

Definition insert_lending (id : Z) (r : lending_row) (s : state) : state :=
  {| connected := connected s; models_importable := models_importable s;
     books := books s; users := users s;
     lending := <[id := r]> (lending s); lending_seq := id;
     reservations := reservations s; reservations_seq := reservations_seq s;
     notifications := notifications s; notifications_seq := notifications_seq s;
     lastrowid := id |}.

Definition set_reservations (v : list (Z * reservation_row)) (s : state) : state :=
  {| connected := connected s; models_importable := models_importable s;
     books := books s; users := users s;
     lending := lending s; lending_seq := lending_seq s;
     reservations := v; reservations_seq := reservations_seq s;
     notifications := notifications s; notifications_seq := notifications_seq s;
     lastrowid := lastrowid s |}.

Definition insert_reservation (id : Z) (r : reservation_row) (s : state) : state :=
  {| connected := connected s; models_importable := models_importable s;
     books := books s; users := users s;
     lending := lending s; lending_seq := lending_seq s;
     reservations := reservations s ++ [(id, r)]; reservations_seq := id;
     notifications := notifications s; notifications_seq := notifications_seq s;
     lastrowid := id |}.

Definition insert_notification (id : Z) (n : notification_row) (s : state) : state :=
  {| connected := connected s; models_importable := models_importable s;
     books := books s; users := users s;
     lending := lending s; lending_seq := lending_seq s;
     reservations := reservations s; reservations_seq := reservations_seq s;
     notifications := notifications s ++ [(id, n)]; notifications_seq := id;
     lastrowid := id |}.

(** AUTOINCREMENT: the new rowid is one more than the largest rowid the
    table holds or ever held. *)
Definition max_key {A} (m : gmap Z A) : Z :=
  map_fold (fun k _ acc => Z.max k acc) 0 m.

Definition max_rowid {A} (l : list (Z * A)) : Z :=
  foldr (fun kv acc => Z.max (fst kv) acc) 0 l.

Definition next_lending_id (s : state) : Z :=
  Z.max (lending_seq s) (max_key (lending s)) + 1.

Definition next_reservation_id (s : state) : Z :=
  Z.max (reservations_seq s) (max_rowid (reservations s)) + 1.

Definition next_notification_id (s : state) : Z :=
  Z.max (notifications_seq s) (max_rowid (notifications s)) + 1.

(** *** [execute_query]: [None] when not connected, else the rows *)

Definition execute_query {A} (s : state) (rows : list A) : option (list A) :=
  if connected s then Some rows else None.

(** [SELECT * FROM books WHERE book_id = ?] *)
Definition select_book_by_id (s : state) (book_id : Z) : option (list (Z * book_row)) :=
  execute_query s
    (match books s !! book_id with Some r => [(book_id, r)] | None => [] end).

(** [SELECT * FROM users WHERE user_id = ?] *)
Definition select_user_by_id (s : state) (user_id : Z) : option (list (Z * user_row)) :=
  execute_query s
    (match users s !! user_id with Some r => [(user_id, r)] | None => [] end).

(** [SELECT * FROM lending WHERE lending_id = ?] *)
Definition select_lending_by_id (s : state) (lending_id : Z) : option (list (Z * lending_row)) :=
  execute_query s
    (match lending s !! lending_id with Some r => [(lending_id, r)] | None => [] end).

(** [SELECT * FROM lending WHERE book_id = ? AND user_id = ? AND status = 'active'] *)
Definition select_active_lending (s : state) (book_id user_id : Z) : option (list (Z * lending_row)) :=
  execute_query s
    (List.filter (fun kv => (l_book_id (snd kv) =? book_id) && (l_user_id (snd kv) =? user_id)
                            && lending_status_eqb (l_status (snd kv)) Active)
                 (map_to_list (lending s))).

Definition pending_for (book_id user_id : Z) (kv : Z * reservation_row) : bool :=
  (r_book_id (snd kv) =? book_id) && (r_user_id (snd kv) =? user_id)
  && reservation_status_eqb (r_status (snd kv)) Pending.

Definition pending_of_book (book_id : Z) (kv : Z * reservation_row) : bool :=
  (r_book_id (snd kv) =? book_id) && reservation_status_eqb (r_status (snd kv)) Pending.

(** [SELECT * FROM reservations WHERE book_id = ? AND user_id = ? AND status = 'pending'] *)
Definition select_pending_reservation (s : state) (book_id user_id : Z) : option (list (Z * reservation_row)) :=
  execute_query s (List.filter (pending_for book_id user_id) (reservations s)).

(** [ORDER BY reservation_date LIMIT 1] over rows in rowid order: the first
    row among those with the least date. *)
Fixpoint earliest (l : list (Z * reservation_row)) : option (Z * reservation_row) :=
  match l with
  | [] => None
  | x :: rest =>
      match earliest rest with
      | None => Some x
      | Some y =>
          if r_reservation_date (snd y) <? r_reservation_date (snd x) then Some y else Some x
      end
  end.

(** [SELECT * FROM reservations WHERE book_id = ? AND status = 'pending'
     ORDER BY reservation_date LIMIT 1] *)
Definition select_next_pending (s : state) (book_id : Z) : option (list (Z * reservation_row)) :=
  execute_query s
    (match earliest (List.filter (pending_of_book book_id) (reservations s)) with
     | Some x => [x]
     | None => []
     end).

(** The scalar subquery
    [(SELECT r2.reservation_date FROM reservations r2
      WHERE r2.book_id = ? AND r2.user_id = ? AND r2.status = 'pending')]:
    the value of its first row, NULL when it has no row. *)
Definition own_reservation_date (s : state) (book_id user_id : Z) : option datetime :=
  match List.filter (pending_for book_id user_id) (reservations s) with
  | [] => None
  | kv :: _ => Some (r_reservation_date (snd kv))
  end.

(** [r1.reservation_date < (subquery)]: a comparison with NULL is not true. *)
Definition earlier_than (sub : option datetime) (kv : Z * reservation_row) : bool :=
  match sub with
  | Some d => r_reservation_date (snd kv) <? d
  | None => false
  end.

(** [SELECT COUNT( * ) as position FROM reservations r1
     WHERE r1.book_id = ? AND r1.status = 'pending'
     AND r1.reservation_date < (subquery)]: always exactly one row. *)
Definition select_queue_position (s : state) (book_id user_id : Z) : option (list Z) :=
  execute_query s
    [Z.of_nat (length (List.filter
       (fun kv => pending_of_book book_id kv
                  && earlier_than (own_reservation_date s book_id user_id) kv)
       (reservations s)))].

(** *** [execute_update]: [False] when not connected, else run and commit *)

Definition execute_update (s : state) (stmt : state -> state) : bool * state :=
  if connected s then (true, stmt s) else (false, s).

Definition set_available (n : Z) (r : book_row) : book_row :=
  {| b_title := b_title r; b_total_copies := b_total_copies r; b_available_copies := n |}.

(** [UPDATE books SET available_copies = ? WHERE book_id = ?]; the key
    parameter may be [None] (NULL), which matches no row. *)
Definition update_book_available (s : state) (new_available : Z) (book_id : option Z)
  : bool * state :=
  execute_update s (fun s =>
    match book_id with
    | Some id => set_books (alter (set_available new_available) id (books s)) s
    | None => s
    end).

(** [INSERT INTO lending (...) VALUES (...)] *)
Definition insert_into_lending (s : state) (r : lending_row) : bool * state :=
  execute_update s (fun s => insert_lending (next_lending_id s) r s).

(** [UPDATE lending SET ... WHERE lending_id = ?] *)
Definition update_lending (s : state) (r : lending_row) (lending_id : Z) : bool * state :=
  execute_update s (fun s => set_lending (alter (fun _ => r) lending_id (lending s)) s).

(** [DELETE FROM lending WHERE lending_id = ?] *)
Definition delete_from_lending (s : state) (lending_id : option Z) : bool * state :=
  execute_update s (fun s =>
    match lending_id with
    | Some id => set_lending (delete id (lending s)) s
    | None => s
    end).

(** [INSERT INTO reservations (...) VALUES (...)] *)
Definition insert_into_reservations (s : state) (r : reservation_row) : bool * state :=
  execute_update s (fun s => insert_reservation (next_reservation_id s) r s).

(** [UPDATE reservations SET ... WHERE reservation_id = ?] *)
Definition update_reservation (s : state) (r : reservation_row) (reservation_id : Z) : bool * state :=
  execute_update s (fun s =>
    set_reservations
      (map (fun kv => if fst kv =? reservation_id then (fst kv, r) else kv) (reservations s)) s).

(** [INSERT INTO notifications (user_id, message, type) VALUES (?, ?, ?)] *)
Definition insert_into_notifications (s : state) (n : notification_row) : bool * state :=
  execute_update s (fun s => insert_notification (next_notification_id s) n s).

(** [get_last_insert_id] *)
Definition get_last_insert_id (s : state) : option Z :=
  if connected s then Some (lastrowid s) else None.

(** *** Statements of the methods outside the issue and return paths *)

Definition set_users (v : gmap Z user_row) (s : state) : state :=
  {| connected := connected s; models_importable := models_importable s;
     books := books s; users := v;
     lending := lending s; lending_seq := lending_seq s;
     reservations := reservations s; reservations_seq := reservations_seq s;
     notifications := notifications s; notifications_seq := notifications_seq s;
     lastrowid := lastrowid s |}.

(** [column = ?] with a parameter that may be [None] (NULL): never true
    for NULL. *)
Definition key_is (k : option Z) (z : Z) : bool :=
  match k with
  | Some i => z =? i
  | None => false
  end.

(** [SELECT * FROM reservations WHERE reservation_id = ?] *)
Definition select_reservation_by_id (s : state) (reservation_id : Z)
  : option (list (Z * reservation_row)) :=
  execute_query s (List.filter (fun kv => fst kv =? reservation_id) (reservations s)).

(** [SELECT COUNT( * ) as count FROM lending WHERE book_id = ? AND status = 'active'] *)
Definition count_active_lending_of_book (s : state) (book_id : option Z) : option (list Z) :=
  execute_query s
    [Z.of_nat (length (List.filter
       (fun kv => key_is book_id (l_book_id (snd kv))
                  && lending_status_eqb (l_status (snd kv)) Active)
       (map_to_list (lending s))))].

(** [SELECT COUNT( * ) as count FROM reservations WHERE book_id = ? AND status = 'pending'] *)
Definition count_pending_reservations_of_book (s : state) (book_id : option Z)
  : option (list Z) :=
  execute_query s
    [Z.of_nat (length (List.filter
       (fun kv => key_is book_id (r_book_id (snd kv))
                  && reservation_status_eqb (r_status (snd kv)) Pending)
       (reservations s)))].

(** [SELECT COUNT( * ) as count FROM lending WHERE user_id = ? AND status = 'active'] *)
Definition count_active_lending_of_user (s : state) (user_id : option Z) : option (list Z) :=
  execute_query s
    [Z.of_nat (length (List.filter
       (fun kv => key_is user_id (l_user_id (snd kv))
                  && lending_status_eqb (l_status (snd kv)) Active)
       (map_to_list (lending s))))].

(** Some row of [lending] or [reservations] has this [book_id]: both
    declare [FOREIGN KEY (book_id) REFERENCES books (book_id)]. *)
Definition book_referenced (s : state) (book_id : Z) : bool :=
  existsb (fun kv => l_book_id (snd kv) =? book_id) (map_to_list (lending s))
  || existsb (fun kv => r_book_id (snd kv) =? book_id) (reservations s).

(** [DELETE FROM books WHERE book_id = ?]. The connection runs with
    [PRAGMA foreign_keys = ON], so deleting a stored book that a lending or
    reservation row refers to raises an integrity error, which
    [execute_update] turns into [False]; deleting no row succeeds. *)
Definition delete_from_books (s : state) (book_id : option Z) : bool * state :=
  if connected s then
    match book_id with
    | Some id =>
        match books s !! id with
        | Some _ =>
            if book_referenced s id then (false, s)
            else (true, set_books (delete id (books s)) s)
        | None => (true, s)
        end
    | None => (true, s)
    end
  else (false, s).

(** [DELETE FROM reservations WHERE reservation_id = ?] *)
Definition delete_from_reservations (s : state) (reservation_id : option Z) : bool * state :=
  execute_update s (fun s =>
    set_reservations
      (List.filter (fun kv => negb (key_is reservation_id (fst kv))) (reservations s)) s).

Definition set_inactive (r : user_row) : user_row := {| u_is_active := false |}.

(** [UPDATE users SET is_active = 0 WHERE user_id = ?] *)
Definition update_user_inactive (s : state) (user_id : option Z) : bool * state :=
  execute_update s (fun s =>
    match user_id with
    | Some id => set_users (alter set_inactive id (users s)) s
    | None => s
    end).

End Db.

Import Db.

(** ** Python helpers *)

(** Truth value of an [Optional[int]]: [None] and [0] are false. *)
Definition truthy_id (o : option Z) : bool :=
  match o with
  | Some z => negb (z =? 0)
  | None => false
  end.

(** Truth value of a query result: [None] and the empty list are false. *)
Definition truthy_rows {A} (r : option (list A)) : bool :=
  match r with
  | Some (_ :: _) => true
  | _ => false
  end.

(** [result and result[0]['count'] > 0] for a COUNT query. *)
Definition positive_count (r : option (list Z)) : bool :=
  match r with
  | Some (count :: _) => 0 <? count
  | _ => false
  end.

(** [str(n)] for an integer. *)
Definition str_int (n : Z) : string := NilZero.string_of_int (Z.to_int n).

Inductive exn := ModuleNotFoundError.

(** What a call does: return a value or raise. *)
Inductive outcome (A : Type) :=
| Returns (a : A)
| Raises (e : exn).
Arguments Returns {A} a.
Arguments Raises {A} e.

(** ** books.py *)

Module Book.

Record t := {
  book_id : option Z;
  title : string;
  total_copies : Z;
  available_copies : Z
}.

Definition _load_from_dict (data : Z * book_row) : t :=
  {| book_id := Some (fst data);
     title := b_title (snd data);
     total_copies := b_total_copies (snd data);
     available_copies := b_available_copies (snd data) |}.

Definition get_by_id (s : state) (id : Z) : option t :=
  if negb (connected s) then None else
  match select_book_by_id s id with
  | Some (row :: _) => Some (_load_from_dict row)
  | _ => None
  end.

Definition with_available (self : t) (n : Z) : t :=
  {| book_id := book_id self; title := title self;
     total_copies := total_copies self; available_copies := n |}.

Definition update_availability (s : state) (self : t) (change : Z) : bool * t * state :=
  if negb (connected s) || negb (truthy_id (book_id self)) then (false, self, s) else
  let new_available := available_copies self + change in
  if new_available <? 0 then (false, self, s) else
  if total_copies self <? new_available then (false, self, s) else
  let (success, s') := update_book_available s new_available (book_id self) in
  if success then (true, with_available self new_available, s')
  else (false, self, s').

Definition is_available (self : t) : bool := 0 <? available_copies self.

Definition delete (s : state) (self : t) : bool * state :=
  if negb (connected s) || negb (truthy_id (book_id self)) then (false, s) else
  if positive_count (count_active_lending_of_book s (book_id self)) then (false, s) else
  if positive_count (count_pending_reservations_of_book s (book_id self)) then (false, s) else
  delete_from_books s (book_id self).

End Book.

(** ** users.py *)

Module User.

Record t := { user_id : option Z; is_active : bool }.

Definition _load_from_dict (data : Z * user_row) : t :=
  {| user_id := Some (fst data); is_active := u_is_active (snd data) |}.

Definition get_by_id (s : state) (id : Z) : option t :=
  if negb (connected s) then None else
  match select_user_by_id s id with
  | Some (row :: _) => Some (_load_from_dict row)
  | _ => None
  end.

Definition with_is_active (self : t) (b : bool) : t :=
  {| user_id := user_id self; is_active := b |}.

(** Soft delete: the user is set inactive. *)
Definition delete (s : state) (self : t) : bool * t * state :=
  if negb (connected s) || negb (truthy_id (user_id self)) then (false, self, s) else
  if positive_count (count_active_lending_of_user s (user_id self)) then (false, self, s) else
  let (success, s') := update_user_inactive s (user_id self) in
  if success then (true, with_is_active self false, s') else (false, self, s').

End User.

(** ** reservations.py *)

Module Reservation.

Record t := {
  reservation_id : option Z;
  book_id : Z;
  user_id : Z;
  reservation_date : datetime;
  status : reservation_status;
  notification_sent : bool
}.

Definition to_row (self : t) : reservation_row :=
  {| r_book_id := book_id self; r_user_id := user_id self;
     r_reservation_date := reservation_date self;
     r_status := status self; r_notification_sent := notification_sent self |}.

Definition _load_from_dict (data : Z * reservation_row) : t :=
  {| reservation_id := Some (fst data);
     book_id := r_book_id (snd data);
     user_id := r_user_id (snd data);
     reservation_date := r_reservation_date (snd data);
     status := r_status (snd data);
     notification_sent := r_notification_sent (snd data) |}.

Definition with_id (self : t) (id : option Z) : t :=
  {| reservation_id := id; book_id := book_id self; user_id := user_id self;
     reservation_date := reservation_date self; status := status self;
     notification_sent := notification_sent self |}.

Definition with_notification_sent (self : t) (b : bool) : t :=
  {| reservation_id := reservation_id self; book_id := book_id self;
     user_id := user_id self; reservation_date := reservation_date self;
     status := status self; notification_sent := b |}.

Definition save (s : state) (self : t) : bool * t * state :=
  if negb (connected s) then (false, self, s) else
  match reservation_id self with
  | None =>
      let (success, s') := insert_into_reservations s (to_row self) in
      if success then (true, with_id self (get_last_insert_id s'), s')
      else (false, self, s')
  | Some id =>
      let (success, s') := update_reservation s (to_row self) id in
      (success, self, s')
  end.

Definition create_reservation (s : state) (book_id user_id : Z) (now : datetime)
  : option t * state :=
  if negb (connected s) then (None, s) else
  match Book.get_by_id s book_id with
  | None => (None, s)
  | Some book =>
      match User.get_by_id s user_id with
      | None => (None, s)
      | Some user =>
          if negb (User.is_active user) then (None, s) else
          if Book.is_available book then (None, s) else
          if truthy_rows (select_pending_reservation s book_id user_id) then (None, s) else
          if truthy_rows (select_active_lending s book_id user_id) then (None, s) else
          let reservation :=
            {| reservation_id := None; book_id := book_id; user_id := user_id;
               reservation_date := now; status := Pending;
               notification_sent := false |} in
          let '(ok, reservation, s') := save s reservation in
          if ok then (Some reservation, s') else (None, s')
      end
  end.

Definition get_queue_position (s : state) (book_id user_id : Z) : option Z :=
  if negb (connected s) then None else
  match select_queue_position s book_id user_id with
  | Some (position :: _) => Some (position + 1)
  | _ => None
  end.

Definition get_next_in_queue (s : state) (book_id : Z) : option t :=
  if negb (connected s) then None else
  match select_next_pending s book_id with
  | Some (row :: _) => Some (_load_from_dict row)
  | _ => None
  end.

Definition default_message (s : state) (self : t) : string :=
  let book_title :=
    match Book.get_by_id s (book_id self) with
    | Some book => Book.title book
    | None => "Unknown Book"%string
    end in
  String.append "Your reserved book '"
    (String.append book_title "' is now available for pickup.").

Definition notify_user (s : state) (self : t) (message : option string)
  : bool * t * state :=
  if negb (connected s) || negb (truthy_id (reservation_id self)) then (false, self, s) else
  let message :=
    match message with
    | Some (String c m) => String c m
    | _ => default_message s self
    end in
  let (success, s1) :=
    insert_into_notifications s
      {| n_user_id := user_id self; n_message := message; n_type := ReservationNotice |} in
  if success then
    let self := with_notification_sent self true in
    let '(_, self, s2) := save s1 self in
    (true, self, s2)
  else (false, self, s1).

Definition get_by_id (s : state) (id : Z) : option t :=
  if negb (connected s) then None else
  match select_reservation_by_id s id with
  | Some (row :: _) => Some (_load_from_dict row)
  | _ => None
  end.

Definition with_status (self : t) (st : reservation_status) : t :=
  {| reservation_id := reservation_id self; book_id := book_id self;
     user_id := user_id self; reservation_date := reservation_date self;
     status := st; notification_sent := notification_sent self |}.

Definition fulfill (s : state) (self : t) : bool * t * state :=
  if negb (connected s) || negb (truthy_id (reservation_id self)) then (false, self, s) else
  if negb (reservation_status_eqb (status self) Pending) then (false, self, s) else
  let self := with_status self Fulfilled in
  let '(saved, self, s') := save s self in
  if saved then (true, self, s') else (false, self, s').

Definition cancel (s : state) (self : t) : bool * t * state :=
  if negb (connected s) || negb (truthy_id (reservation_id self)) then (false, self, s) else
  if negb (reservation_status_eqb (status self) Pending) then (false, self, s) else
  let self := with_status self Cancelled in
  let '(saved, self, s') := save s self in
  if saved then (true, self, s') else (false, self, s').

Definition delete (s : state) (self : t) : bool * state :=
  if negb (connected s) || negb (truthy_id (reservation_id self)) then (false, s)
  else delete_from_reservations s (reservation_id self).

End Reservation.

(** ** lending.py *)

Module Lending.

Record t := {
  lending_id : option Z;
  book_id : Z;
  user_id : Z;
  issue_date : datetime;
  due_date : option datetime;
  return_date : option datetime;
  fine_amount : Q;
  status : lending_status
}.

Definition _load_from_dict (data : Z * lending_row) : t :=
  {| lending_id := Some (fst data);
     book_id := l_book_id (snd data);
     user_id := l_user_id (snd data);
     issue_date := l_issue_date (snd data);
     due_date := Some (l_due_date (snd data));
     return_date := l_return_date (snd data);
     fine_amount := l_fine_amount (snd data);
     status := l_status (snd data) |}.

Definition with_id (self : t) (id : option Z) : t :=
  {| lending_id := id; book_id := book_id self; user_id := user_id self;
     issue_date := issue_date self; due_date := due_date self;
     return_date := return_date self; fine_amount := fine_amount self;
     status := status self |}.

(** The three assignments of [return_book] to the loaded record. *)
Definition mark_returned (self : t) (now : datetime) (fine : Q) : t :=
  {| lending_id := lending_id self; book_id := book_id self; user_id := user_id self;
     issue_date := issue_date self; due_date := due_date self;
     return_date := Some now; fine_amount := fine;
     status := Returned |}.

Definition get_by_id (s : state) (id : Z) : option t :=
  if negb (connected s) then None else
  match select_lending_by_id s id with
  | Some (row :: _) => Some (_load_from_dict row)
  | _ => None
  end.

(** The row a statement writes; [due_date] is NOT NULL, so a record without
    one makes the statement fail. *)
Definition to_row (self : t) : option lending_row :=
  match due_date self with
  | Some due =>
      Some {| l_book_id := book_id self; l_user_id := user_id self;
              l_issue_date := issue_date self; l_due_date := due;
              l_return_date := return_date self;
              l_fine_amount := fine_amount self; l_status := status self |}
  | None => None
  end.

Definition save (s : state) (self : t) : bool * t * state :=
  if negb (connected s) then (false, self, s) else
  match to_row self with
  | None => (false, self, s)
  | Some row =>
      match lending_id self with
      | None =>
          let (success, s') := insert_into_lending s row in
          if success then (true, with_id self (get_last_insert_id s'), s')
          else (false, self, s')
      | Some id =>
          let (success, s') := update_lending s row id in
          (success, self, s')
      end
  end.

Definition delete (s : state) (self : t) : bool * state :=
  if negb (connected s) || negb (truthy_id (lending_id self)) then (false, s)
  else delete_from_lending s (lending_id self).

Definition _process_next_reservation (s : state) (book_id : Z) : outcome unit * state :=
  (* from models.reservations import Reservation *)
  if negb (models_importable s) then (Raises ModuleNotFoundError, s) else
  match select_next_pending s book_id with
  | Some (reservation_data :: _) =>
      let (_, s') :=
        insert_into_notifications s
          {| n_user_id := r_user_id (snd reservation_data);
             n_message :=
               String.append "Your reserved book is now available: " (str_int book_id);
             n_type := ReservationNotice |} in
      (Returns tt, s')
  | _ => (Returns tt, s)
  end.

Definition issue_book (s : state) (book_id user_id loan_days : Z) (now : datetime)
  : option t * state :=
  if negb (connected s) then (None, s) else
  match Book.get_by_id s book_id with
  | None => (None, s)
  | Some book =>
      if negb (Book.is_available book) then (None, s) else
      match User.get_by_id s user_id with
      | None => (None, s)
      | Some user =>
          if negb (User.is_active user) then (None, s) else
          if truthy_rows (select_active_lending s book_id user_id) then (None, s) else
          let issue_date := now in
          let due_date := issue_date + timedelta_days loan_days in
          let lending :=
            {| lending_id := None; book_id := book_id; user_id := user_id;
               issue_date := issue_date; due_date := Some due_date;
               return_date := None; fine_amount := 0%Q; status := Active |} in
          let '(saved, lending, s1) := save s lending in
          if saved then
            let '(updated, _, s2) := Book.update_availability s1 book (-1) in
            if updated then (Some lending, s2)
            else
              (* Rollback lending if book update fails *)
              let (_, s3) := delete s2 lending in (None, s3)
          else (None, s1)
      end
  end.

Definition return_book (s : state) (lending_id : Z) (fine_amount : Q) (now : datetime)
  : outcome bool * state :=
  if negb (connected s) then (Returns false, s) else
  match get_by_id s lending_id with
  | None => (Returns false, s)
  | Some lending =>
      if negb (lending_status_eqb (status lending) Active) then (Returns false, s) else
      let lending := mark_returned lending now fine_amount in
      let '(saved, lending, s1) := save s lending in
      if saved then
        match Book.get_by_id s1 (book_id lending) with
        | None => (Returns false, s1)
        | Some book =>
            let '(updated, _, s2) := Book.update_availability s1 book 1 in
            if updated then
              match _process_next_reservation s2 (book_id lending) with
              | (Returns _, s3) => (Returns true, s3)
              | (Raises e, s3) => (Raises e, s3)
              end
            else (Returns false, s2)
        end
      else (Returns false, s1)
  end.

Definition is_overdue (self : t) (now : datetime) : bool :=
  match due_date self with
  | Some due =>
      if negb (lending_status_eqb (status self) Active) then false else due <? now
  | None => false
  end.

Definition days_overdue (self : t) (now : datetime) : Z :=
  match due_date self with
  | Some due => if negb (is_overdue self now) then 0 else td_days (now - due)
  | None => 0
  end.

(** [fine_per_day] defaults to 1.0 at the call. *)
Definition calculate_fine (self : t) (now : datetime) (fine_per_day : Q) : Q :=
  let days := days_overdue self now in
  if 0 <? days then Qmult (inject_Z days) fine_per_day else 0%Q.

End Lending.

(** ** Sequences of circulation operations *)

Inductive op :=
| Issue (book_id user_id loan_days : Z) (now : datetime)
| Return (lending_id : Z) (fine_amount : Q) (now : datetime).

Definition step (s : state) (o : op) : state :=
  match o with
  | Issue b u d now => snd (Lending.issue_book s b u d now)
  | Return l f now => snd (Lending.return_book s l f now)
  end.

Definition run (s : state) (ops : list op) : state := fold_left step ops s.

(** The ledger invariant: every stored book has
    [0 <= available_copies <= total_copies]. *)
Definition copies_in_bounds (s : state) : Prop :=
  map_Forall (fun _ r => 0 <= b_available_copies r <= b_total_copies r) (books s).

(** [available_copies] of a stored book, [None] when there is no such book. *)
Definition available_of (s : state) (book_id : Z) : option Z :=
  b_available_copies <$> books s !! book_id.

(** An example state: one title with a single copy, two active users. *)
Definition one_copy_library : state :=
  {| connected := true; models_importable := true;
     books := {[ 1 := {| b_title := "Dune"; b_total_copies := 1; b_available_copies := 1 |} ]};
     users := {[ 1 := {| u_is_active := true |}; 2 := {| u_is_active := true |} ]};
     lending := ∅; lending_seq := 0;
     reservations := []; reservations_seq := 0;
     notifications := []; notifications_seq := 0; lastrowid := 0 |}.

(** ** Sequences of desk operations *)

(** The operations a desk performs, each method being called on the record
    its class's [get_by_id] returns (nothing happens when there is none). *)
Inductive desk_op :=
| DeskIssue (book_id user_id loan_days : Z) (now : datetime)
| DeskReturn (lending_id : Z) (fine_amount : Q) (now : datetime)
| DeskReserve (book_id user_id : Z) (now : datetime)
| DeskCancel (reservation_id : Z)
| DeskFulfill (reservation_id : Z)
| DeskNotify (reservation_id : Z) (message : option string)
| DeskDeleteReservation (reservation_id : Z)
| DeskDeleteBook (book_id : Z)
| DeskDeactivateUser (user_id : Z).

Definition desk_step (s : state) (o : desk_op) : state :=
  match o with
  | DeskIssue b u d now => snd (Lending.issue_book s b u d now)
  | DeskReturn l f now => snd (Lending.return_book s l f now)
  | DeskReserve b u now => snd (Reservation.create_reservation s b u now)
  | DeskCancel r =>
      match Reservation.get_by_id s r with
      | Some res => snd (Reservation.cancel s res)
      | None => s
      end
  | DeskFulfill r =>
      match Reservation.get_by_id s r with
      | Some res => snd (Reservation.fulfill s res)
      | None => s
      end
  | DeskNotify r message =>
      match Reservation.get_by_id s r with
      | Some res => snd (Reservation.notify_user s res message)
      | None => s
      end
  | DeskDeleteReservation r =>
      match Reservation.get_by_id s r with
      | Some res => snd (Reservation.delete s res)
      | None => s
      end
  | DeskDeleteBook b =>
      match Book.get_by_id s b with
      | Some book => snd (Book.delete s book)
      | None => s
      end
  | DeskDeactivateUser u =>
      match User.get_by_id s u with
      | Some user => snd (User.delete s user)
      | None => s
      end
  end.

Definition desk_run (s : state) (ops : list desk_op) : state := fold_left desk_step ops s.

(** Number of rows of a keyed table that satisfy [p]. *)
Definition count_rows {A} (p : Z * A -> bool) (m : gmap Z A) : Z :=
  Z.of_nat (length (List.filter p (map_to_list m))).

Definition active_of_book (b : Z) (kv : Z * lending_row) : bool :=
  (l_book_id (snd kv) =? b) && lending_status_eqb (l_status (snd kv)) Active.

(** Number of active loans of a book. *)
Definition active_loans_of (s : state) (b : Z) : Z :=
  count_rows (active_of_book b) (lending s).

(** The ledger agrees with the loans: for every stored book the available
    copies and the active loans add up to the total, no count is negative,
    and every active loan is of a stored book whose key is not 0. *)
Definition ledger_consistent (s : state) : Prop :=
  (forall b row, books s !! b = Some row ->
     b_available_copies row + active_loans_of s b = b_total_copies row /\
     0 <= b_available_copies row) /\
  (forall i r, lending s !! i = Some r -> l_status r = Active ->
     l_book_id r <> 0 /\ is_Some (books s !! l_book_id r)).

(** At most one active loan per book and user. *)
Definition unique_active (s : state) : Prop :=
  forall i j ri rj,
    lending s !! i = Some ri -> lending s !! j = Some rj ->
    l_status ri = Active -> l_status rj = Active ->
    l_book_id ri = l_book_id rj -> l_user_id ri = l_user_id rj -> i = j.

(** At most one pending reservation per book and user. *)
Definition unique_pending (s : state) : Prop :=
  forall b u, (length (List.filter (pending_for b u) (reservations s)) <= 1)%nat.

(** Reservation rowids are distinct. *)
Definition reservation_ids_distinct (s : state) : Prop :=
  NoDup (map fst (reservations s)).

(** ** Derived rows, states and the formula of the specification *)

(** The new count lies between 0 and [total_copies]. *)
Definition in_bounds (b : Book.t) (change : Z) : Prop :=
  0 <= Book.available_copies b + change <= Book.total_copies b.

(** The row [return_book] writes over [row]. *)
Definition returned_row (row : lending_row) (now : datetime) (fine : Q) : lending_row :=
  {| l_book_id := l_book_id row; l_user_id := l_user_id row;
     l_issue_date := l_issue_date row; l_due_date := l_due_date row;
     l_return_date := Some now; l_fine_amount := fine; l_status := Returned |}.

(** The row [issue_book] inserts. *)
Definition issued_row (book_id user_id loan_days : Z) (now : datetime) : lending_row :=
  {| l_book_id := book_id; l_user_id := user_id;
     l_issue_date := now; l_due_date := now + timedelta_days loan_days;
     l_return_date := None; l_fine_amount := 0%Q; l_status := Active |}.

(** The state after the loan row has been rewritten as returned. *)
Definition loan_marked (s : state) (id : Z) (row : lending_row) (now : datetime) (fine : Q)
  : state :=
  set_lending (alter (fun _ => returned_row row now fine) id (lending s)) s.

(** The state after, in addition, the copy is back on the shelf. *)
Definition copy_restored (s : state) (id : Z) (row : lending_row) (b : book_row)
    (now : datetime) (fine : Q) : state :=
  set_books
    (alter (set_available (b_available_copies b + 1)) (l_book_id row) (books s))
    (loan_marked s id row now fine).

(** User 1 holds the only copy. *)
Definition no_copy_left : state :=
  {| connected := true; models_importable := true;
     books := {[ 1 := {| b_title := "Dune"; b_total_copies := 1; b_available_copies := 0 |} ]};
     users := {[ 1 := {| u_is_active := true |}; 2 := {| u_is_active := true |} ]};
     lending := {[ 1 := issued_row 1 1 14 (date 2024 1 1) ]}; lending_seq := 1;
     reservations := []; reservations_seq := 0;
     notifications := []; notifications_seq := 0; lastrowid := 1 |}.

(** The same catalogue with the manager not connected. *)
Definition offline_library : state :=
  {| connected := false; models_importable := true;
     books := books one_copy_library; users := users one_copy_library;
     lending := ∅; lending_seq := 0;
     reservations := []; reservations_seq := 0;
     notifications := []; notifications_seq := 0; lastrowid := 0 |}.

(** [fine_amount: float = 0.0] and [fine_per_day: float = 1.0] *)
Definition default_fine_amount : Q := 0.
Definition default_fine_per_day : Q := 1.

(** A loan of the only copy, due on 2024-01-10 and still out. *)
Definition loan_due_jan_10 : state :=
  {| connected := true; models_importable := true;
     books := {[ 1 := {| b_title := "Dune"; b_total_copies := 1; b_available_copies := 0 |} ]};
     users := {[ 1 := {| u_is_active := true |}; 2 := {| u_is_active := true |} ]};
     lending := {[ 1 := issued_row 1 1 14 (date 2023 12 27) ]}; lending_seq := 1;
     reservations := []; reservations_seq := 0;
     notifications := []; notifications_seq := 0; lastrowid := 1 |}.

(** The fine formula in the words of the specification:
    [max(0, daysBetween(dueDate, returnDate)) * ratePerDay], where
    [daysBetween] counts whole days and is 0 when [returnDate <= dueDate]. *)
Definition days_between (due_date return_date : datetime) : Z :=
  if return_date <=? due_date then 0 else td_days (return_date - due_date).

(** [max(0, daysBetween(dueDate, returnDate)) * ratePerDay] *)
Definition fine_formula (due_date return_date : datetime) (rate_per_day : Q) : Q :=
  (inject_Z (Z.max 0 (days_between due_date return_date)) * rate_per_day)%Q.

(** A loan record with the given due date, return date and status. *)
Definition loan_record (due : datetime) (returned : option datetime)
    (st : lending_status) : Lending.t :=
  {| Lending.lending_id := Some 1; Lending.book_id := 1; Lending.user_id := 1;
     Lending.issue_date := due - timedelta_days 14; Lending.due_date := Some due;
     Lending.return_date := returned; Lending.fine_amount := 0%Q;
     Lending.status := st |}.

(** A loan is out, and the catalogue entry of its book has since been edited
    so that all its copies count as available. *)
Definition shelf_counted_full : state :=
  {| connected := true; models_importable := true;
     books := {[ 1 := {| b_title := "Dune"; b_total_copies := 1; b_available_copies := 1 |} ]};
     users := {[ 1 := {| u_is_active := true |}; 2 := {| u_is_active := true |} ]};
     lending := {[ 1 := issued_row 1 1 14 (date 2024 1 1) ]}; lending_seq := 1;
     reservations := []; reservations_seq := 0;
     notifications := []; notifications_seq := 0; lastrowid := 1 |}.

(** User 1 holds the only copy, ledger and loans agree, and the module
    search path is the one every entry point of the repository sets up: it
    holds the directory of [LibrarySystem], so no top-level package [models]
    can be imported. *)
Definition no_copy_left_as_shipped : state :=
  {| connected := true; models_importable := false;
     books := {[ 1 := {| b_title := "Dune"; b_total_copies := 1; b_available_copies := 0 |} ]};
     users := {[ 1 := {| u_is_active := true |}; 2 := {| u_is_active := true |} ]};
     lending := {[ 1 := issued_row 1 1 14 (date 2024 1 1) ]}; lending_seq := 1;
     reservations := []; reservations_seq := 0;
     notifications := []; notifications_seq := 0; lastrowid := 1 |}.

(** Two pending reservations of book 1, made a day apart. *)
Definition first_in_line : reservation_row :=
  {| r_book_id := 1; r_user_id := 2; r_reservation_date := date 2024 1 2;
     r_status := Pending; r_notification_sent := false |}.

Definition second_in_line : reservation_row :=
  {| r_book_id := 1; r_user_id := 3; r_reservation_date := date 2024 1 3;
     r_status := Pending; r_notification_sent := false |}.

(** The copy was just returned; users 2 and 3 wait for it, in that order. *)
Definition two_waiting : state :=
  {| connected := true; models_importable := true;
     books := {[ 1 := {| b_title := "Dune"; b_total_copies := 1; b_available_copies := 1 |} ]};
     users := {[ 1 := {| u_is_active := true |}; 2 := {| u_is_active := true |};
                 3 := {| u_is_active := true |}; 4 := {| u_is_active := true |} ]};
     lending := {[ 1 := returned_row (issued_row 1 1 14 (date 2024 1 1)) (date 2024 1 10) 0 ]};
     lending_seq := 1;
     reservations := [(1, first_in_line); (2, second_in_line)]; reservations_seq := 2;
     notifications := []; notifications_seq := 0; lastrowid := 2 |}.

(** ** Auxiliary rows, tables and example states *)

Definition active_for (b u : Z) (kv : Z * lending_row) : bool :=
  (l_book_id (snd kv) =? b) && (l_user_id (snd kv) =? u)
  && lending_status_eqb (l_status (snd kv)) Active.

Definition reserved_row (b u : Z) (now : datetime) : reservation_row :=
  {| r_book_id := b; r_user_id := u; r_reservation_date := now;
     r_status := Pending; r_notification_sent := false |}.

(** The table after [UPDATE reservations SET ... WHERE reservation_id = id]. *)
Definition rewritten (id : Z) (r : reservation_row) (l : list (Z * reservation_row))
  : list (Z * reservation_row) :=
  map (fun kv => if fst kv =? id then (fst kv, r) else kv) l.

Definition with_row_status (r : reservation_row) (st : reservation_status) : reservation_row :=
  {| r_book_id := r_book_id r; r_user_id := r_user_id r;
     r_reservation_date := r_reservation_date r;
     r_status := st; r_notification_sent := r_notification_sent r |}.

Definition with_row_sent (r : reservation_row) : reservation_row :=
  {| r_book_id := r_book_id r; r_user_id := r_user_id r;
     r_reservation_date := r_reservation_date r;
     r_status := r_status r; r_notification_sent := true |}.

Definition queue_wf (s : state) : Prop :=
  reservation_ids_distinct s /\ unique_pending s.

Definition busy_day : list desk_op :=
  [DeskIssue 1 1 14 (date 2024 1 1); DeskIssue 1 2 14 (date 2024 1 2);
   DeskReserve 1 2 (date 2024 1 2); DeskDeleteBook 1; DeskDeactivateUser 1;
   DeskReturn 1 0 (date 2024 1 10); DeskNotify 1 None;
   DeskIssue 1 2 14 (date 2024 1 11); DeskFulfill 1; DeskCancel 1;
   DeskDeleteReservation 1].

(** Three active users; user 1 holds the only copy of the book. *)
Definition reading_room : state :=
  {| connected := true; models_importable := true;
     books := {[ 1 := {| b_title := "Dune"; b_total_copies := 1; b_available_copies := 0 |} ]};
     users := {[ 1 := {| u_is_active := true |}; 2 := {| u_is_active := true |};
                 3 := {| u_is_active := true |} ]};
     lending := {[ 1 := issued_row 1 1 14 (date 2024 1 1) ]}; lending_seq := 1;
     reservations := []; reservations_seq := 0;
     notifications := []; notifications_seq := 0; lastrowid := 1 |}.

(** The state after user 2 has reserved the book. *)
Definition one_waiting : state :=
  snd (Reservation.create_reservation reading_room 1 2 (date 2024 1 2)).

(** The state after user 3 has reserved it too. *)
Definition two_in_line : state :=
  snd (Reservation.create_reservation one_waiting 1 3 (date 2024 1 3)).

(** The state after promotion has notified the holder of [x]. *)
Definition promoted (s : state) (b : Z) (x : Z * reservation_row) : state :=
  insert_notification (next_notification_id s)
    {| n_user_id := r_user_id (snd x);
       n_message := String.append "Your reserved book is now available: " (str_int b);
       n_type := ReservationNotice |} s.

(** * Properties *)

(** ** Reading rows *)

Lemma book_get_by_id_Some s id b :
  Book.get_by_id s id = Some b ->
  connected s = true /\
  exists row, books s !! id = Some row /\ b = Book._load_from_dict (id, row).
Proof.
  unfold Book.get_by_id, select_book_by_id, execute_query.
  destruct (connected s); simpl; [|discriminate].
  destruct (books s !! id) as [row|]; [|discriminate].
  intros [= <-]. eauto.
Qed.

Lemma book_get_by_id_lookup s id row :
  connected s = true -> books s !! id = Some row ->
  Book.get_by_id s id = Some (Book._load_from_dict (id, row)).
Proof.
  intros Hc Hb. unfold Book.get_by_id, select_book_by_id, execute_query.
  now rewrite Hc, Hb.
Qed.

Lemma lending_get_by_id_Some s id l :
  Lending.get_by_id s id = Some l ->
  connected s = true /\
  exists row, lending s !! id = Some row /\ l = Lending._load_from_dict (id, row).
Proof.
  unfold Lending.get_by_id, select_lending_by_id, execute_query.
  destruct (connected s); simpl; [|discriminate].
  destruct (lending s !! id) as [row|]; [|discriminate].
  intros [= <-]. eauto.
Qed.

Lemma lending_get_by_id_lookup s id row :
  connected s = true -> lending s !! id = Some row ->
  Lending.get_by_id s id = Some (Lending._load_from_dict (id, row)).
Proof.
  intros Hc Hl. unfold Lending.get_by_id, select_lending_by_id, execute_query.
  now rewrite Hc, Hl.
Qed.

(** ** The ledger adjustment *)

(** The two ways [update_availability] ends: it writes the new count to the
    record and to the stored row, or it rejects and touches nothing. *)
Lemma update_availability_cases s b change :
  (exists id, Book.book_id b = Some id /\ id <> 0 /\ connected s = true /\
     in_bounds b change /\
     Book.update_availability s b change =
       (true, Book.with_available b (Book.available_copies b + change),
        set_books (alter (set_available (Book.available_copies b + change)) id (books s)) s))
  \/ ((connected s = false \/ truthy_id (Book.book_id b) = false \/ ~ in_bounds b change) /\
      Book.update_availability s b change = (false, b, s)).
Proof.
  unfold Book.update_availability, in_bounds, update_book_available, execute_update.
  destruct (connected s) eqn:Hc; simpl; [|right; split; [left|]; reflexivity].
  destruct (Book.book_id b) as [id|] eqn:Hid; simpl;
    [|right; split; [right; left|]; reflexivity].
  destruct (id =? 0) eqn:Hz; simpl; [right; split; [right; left|]; reflexivity|].
  apply Z.eqb_neq in Hz.
  destruct (Z.ltb_spec (Book.available_copies b + change) 0);
    [right; split; [right; right; lia|reflexivity]|].
  destruct (Z.ltb_spec (Book.total_copies b) (Book.available_copies b + change));
    [right; split; [right; right; lia|reflexivity]|].
  left. exists id. repeat split; auto.
Qed.

(** ** Promotion *)

(** [ORDER BY reservation_date LIMIT 1] yields a row of the list, and no row
    of the list has an earlier date. *)
Lemma earliest_is_least l x :
  earliest l = Some x ->
  In x l /\ forall y, In y l ->
    r_reservation_date (snd x) <= r_reservation_date (snd y).
Proof.
  revert x. induction l as [|a l IH]; intros x; simpl; [discriminate|].
  destruct (earliest l) as [y|] eqn:E.
  - destruct (IH y eq_refl) as [Hin Hmin].
    destruct (Z.ltb_spec (r_reservation_date (snd y)) (r_reservation_date (snd a)));
      intros [= <-]; (split; [tauto|]); intros z [<-|Hz]; try lia;
      specialize (Hmin z Hz); lia.
  - intros [= <-]. destruct l as [|b l']; [|simpl in E; destruct (earliest l');
      [destruct (_ <? _)|]; discriminate].
    split; [tauto|]. intros z [<-|[]]. lia.
Qed.

(** When somebody waits for the book and the import resolves,
    [_process_next_reservation] appends exactly one notification, addressed
    to the holder of a pending reservation of that book than which none is
    earlier. *)
Lemma process_next_reservation_notifies_earliest s book_id x :
  connected s = true -> models_importable s = true ->
  earliest (List.filter (pending_of_book book_id) (reservations s)) = Some x ->
  In x (reservations s) /\ r_book_id (snd x) = book_id /\ r_status (snd x) = Pending /\
  (forall y, In y (reservations s) -> r_book_id (snd y) = book_id ->
     r_status (snd y) = Pending ->
     r_reservation_date (snd x) <= r_reservation_date (snd y)) /\
  exists id msg,
    notifications (snd (Lending._process_next_reservation s book_id))
    = notifications s ++
      [(id, {| n_user_id := r_user_id (snd x); n_message := msg;
               n_type := ReservationNotice |})].
Proof.
  intros Hc Hm Hx.
  destruct (earliest_is_least _ _ Hx) as [Hin Hmin].
  apply filter_In in Hin as [Hin Hp].
  unfold pending_of_book in Hp. apply andb_prop in Hp as [Hb Hst].
  apply Z.eqb_eq in Hb.
  split; [assumption|]. split; [assumption|].
  split; [destruct (r_status (snd x)); simpl in Hst; congruence|].
  split.
  - intros y Hy Hyb Hyst. apply Hmin, filter_In. split; [assumption|].
    unfold pending_of_book. rewrite Hyb, Hyst, Z.eqb_refl. reflexivity.
  - unfold Lending._process_next_reservation, select_next_pending, execute_query,
      insert_into_notifications, execute_update.
    rewrite Hm, Hc, Hx. simpl. eauto.
Qed.

(** What [_process_next_reservation] can change: nothing, or one more row
    of [notifications] (with its counter and the last rowid). *)
Lemma process_next_reservation_frame s book_id :
  let s' := snd (Lending._process_next_reservation s book_id) in
  connected s' = connected s /\ models_importable s' = models_importable s /\
  books s' = books s /\ users s' = users s /\
  lending s' = lending s /\ lending_seq s' = lending_seq s /\
  reservations s' = reservations s /\ reservations_seq s' = reservations_seq s /\
  (notifications s' = notifications s \/
   exists n, notifications s' = notifications s ++ [n]).
Proof.
  unfold Lending._process_next_reservation, select_next_pending, execute_query,
    insert_into_notifications, execute_update.
  destruct (models_importable s) eqn:Hm; simpl; [|intuition].
  destruct (connected s) eqn:Hc; simpl; [|intuition].
  destruct (earliest _) as [x|]; simpl; [|intuition].
  rewrite Hc. simpl. repeat split; eauto.
Qed.

(** ** Saving a loan *)

Lemma max_key_upper {A} (m : gmap Z A) k : is_Some (m !! k) -> k <= max_key m.
Proof.
  unfold max_key. revert k.
  apply (map_fold_weak_ind (fun r (m : gmap Z A) => forall k, is_Some (m !! k) -> k <= r)).
  - intros k [x Hx]. rewrite lookup_empty in Hx. discriminate.
  - intros i x m' r _ IH k Hk.
    destruct (decide (i = k)) as [->|Hne]; [lia|].
    rewrite lookup_insert_ne in Hk by assumption.
    specialize (IH k Hk). lia.
Qed.

Lemma next_lending_id_fresh s : lending s !! next_lending_id s = None.
Proof.
  destruct (lending s !! next_lending_id s) eqn:E; [|reflexivity].
  assert (H : next_lending_id s <= max_key (lending s))
    by (apply max_key_upper; eauto).
  unfold next_lending_id in H. lia.
Qed.

Lemma max_key_nonneg {A} (m : gmap Z A) : 0 <= max_key m.
Proof.
  unfold max_key.
  apply (map_fold_weak_ind (fun r (_ : gmap Z A) => 0 <= r)); intros; lia.
Qed.

Lemma next_lending_id_pos s : 0 < next_lending_id s.
Proof. unfold next_lending_id. pose proof (max_key_nonneg (lending s)). lia. Qed.

(** ** Issue *)

(** The two ends of [issue_book]: it fails and the books and loans are the
    ones before the call, or it stores the new loan under a fresh rowid and
    takes one copy of the book off the shelf. *)
Lemma issue_book_result s b u d now :
  let r := Lending.issue_book s b u d now in
  (fst r = None /\ books (snd r) = books s /\ lending (snd r) = lending s /\
   users (snd r) = users s /\ reservations (snd r) = reservations s /\
   notifications (snd r) = notifications s /\ connected (snd r) = connected s /\
   models_importable (snd r) = models_importable s)
  \/ (exists row l,
        books s !! b = Some row /\ 0 < b_available_copies row /\
        b_available_copies row - 1 <= b_total_copies row /\
        fst r = Some l /\
        Lending.lending_id l = Some (next_lending_id s) /\
        lending (snd r) = <[next_lending_id s := issued_row b u d now]> (lending s) /\
        books (snd r) = alter (set_available (b_available_copies row - 1)) b (books s) /\
        users (snd r) = users s /\ reservations (snd r) = reservations s /\
        notifications (snd r) = notifications s /\ connected (snd r) = connected s /\
        models_importable (snd r) = models_importable s).
Proof.
  unfold Lending.issue_book.
  destruct (connected s) eqn:Hc; simpl; [|left; tauto].
  destruct (Book.get_by_id s b) as [book|] eqn:Hb; [|left; tauto].
  apply book_get_by_id_Some in Hb as (_ & row & Hrow & ->).
  destruct (Book.is_available _) eqn:Hav; simpl; [|left; tauto].
  unfold Book.is_available in Hav. simpl in Hav. apply Z.ltb_lt in Hav.
  destruct (User.get_by_id s u) as [user|]; [|left; tauto].
  destruct (User.is_active user); simpl; [|left; tauto].
  destruct (truthy_rows _); [left; tauto|].
  unfold Lending.save, insert_into_lending, execute_update, get_last_insert_id.
  rewrite Hc. simpl. rewrite Hc.
  set (id := next_lending_id s).
  set (s1 := insert_lending id _ s).
  destruct (update_availability_cases s1 (Book._load_from_dict (b, row)) (-1))
    as [(id' & Hid & Hne & _ & Hin & ->)|(_ & ->)].
  - right. simpl in Hid. injection Hid as <-.
    unfold in_bounds in Hin. simpl in Hin.
    eexists row, _. simpl.
    replace (b_available_copies row + -1) with (b_available_copies row - 1) by lia.
    repeat split; auto; lia.
  - left. unfold Lending.delete, delete_from_lending, execute_update. simpl.
    pose proof (next_lending_id_pos s) as Hpos. fold id in Hpos.
    destruct (id =? 0) eqn:Hz; [apply Z.eqb_eq in Hz; lia|].
    rewrite Hc. simpl.
    rewrite delete_insert_eq, delete_id by apply next_lending_id_fresh.
    tauto.
Qed.

(** ** Return *)

(** The three ends of [return_book]:
    - nothing to return (no connection, no such loan, loan not active):
      failure, state untouched;
    - the loan row is rewritten but the book is missing or the increment is
      rejected: failure, the rewritten loan stays;
    - loan rewritten, copy restored, promotion run. *)
Lemma return_book_result s id fine now :
  let r := Lending.return_book s id fine now in
  (fst r = Returns false /\ snd r = s /\
   (connected s = false \/ lending s !! id = None \/
    exists row, lending s !! id = Some row /\ l_status row <> Active))
  \/ exists row,
       connected s = true /\ lending s !! id = Some row /\ l_status row = Active /\
       ((fst r = Returns false /\ snd r = loan_marked s id row now fine /\
         (books s !! l_book_id row = None \/
          exists b, books s !! l_book_id row = Some b /\
            (l_book_id row = 0 \/
             ~ 0 <= b_available_copies b + 1 <= b_total_copies b)))
        \/ exists b,
             books s !! l_book_id row = Some b /\ l_book_id row <> 0 /\
             0 <= b_available_copies b + 1 <= b_total_copies b /\
             snd r = snd (Lending._process_next_reservation
                            (copy_restored s id row b now fine) (l_book_id row)) /\
             fst r = if models_importable s then Returns true
                     else Raises ModuleNotFoundError).
Proof.
  unfold Lending.return_book.
  destruct (connected s) eqn:Hc; simpl; [|left; tauto].
  destruct (Lending.get_by_id s id) as [l|] eqn:Hl.
  2:{ left. repeat split. right. left.
      unfold Lending.get_by_id, select_lending_by_id, execute_query in Hl.
      rewrite Hc in Hl. simpl in Hl.
      destruct (lending s !! id); [discriminate|reflexivity]. }
  apply lending_get_by_id_Some in Hl as (_ & row & Hrow & ->). simpl.
  destruct (l_status row) eqn:Hst; simpl;
    try (left; repeat split; right; right; exists row; split; [assumption|congruence]).
  right. exists row.
  split; [reflexivity|]. split; [assumption|]. split; [assumption|].
  unfold Lending.save, update_lending, execute_update. simpl. rewrite Hc. simpl.
  fold (returned_row row now fine). fold (loan_marked s id row now fine).
  set (s1 := loan_marked s id row now fine).
  unfold Book.get_by_id, select_book_by_id, execute_query.
  change (connected s1) with (connected s). change (books s1) with (books s).
  rewrite Hc. simpl.
  destruct (books s !! l_book_id row) as [b|] eqn:Hb; [|left; tauto].
  destruct (update_availability_cases s1 (Book._load_from_dict (l_book_id row, b)) 1)
    as [(id' & Hid & Hne & _ & Hin & ->)|(Hwhy & ->)].
  - right. exists b. simpl in Hid. injection Hid as <-.
    unfold in_bounds in Hin. simpl in Hin. simpl.
    set (s2 := copy_restored s id row b now fine).
    change (set_books _ s1) with s2.
    repeat split; try assumption; try lia.
    + destruct (Lending._process_next_reservation s2 (l_book_id row)) as [[[]|e] s3];
        reflexivity.
    + unfold Lending._process_next_reservation.
      change (models_importable s2) with (models_importable s).
      destruct (models_importable s); simpl; [|reflexivity].
      destruct (select_next_pending s2 (l_book_id row)) as [[|x rest]|]; simpl;
        try reflexivity.
      destruct (insert_into_notifications _ _); reflexivity.
  - left. repeat split. right. exists b. split; [reflexivity|].
    unfold in_bounds in Hwhy. simpl in Hwhy.
    destruct Hwhy as [Hw|[Hw|Hw]].
    + change (connected s1) with (connected s) in Hw. congruence.
    + left. destruct (l_book_id row =? 0) eqn:Hz; [now apply Z.eqb_eq|discriminate].
    + right. exact Hw.
Qed.

(** ** The ledger invariant *)

Lemma alter_keeps_bounds (m : gmap Z book_row) k row n :
  map_Forall (fun _ r => 0 <= b_available_copies r <= b_total_copies r) m ->
  m !! k = Some row -> 0 <= n <= b_total_copies row ->
  map_Forall (fun _ r => 0 <= b_available_copies r <= b_total_copies r)
    (alter (set_available n) k m).
Proof.
  intros Hm Hk Hn i r. rewrite lookup_alter.
  destruct (decide (k = i)) as [->|_].
  - rewrite Hk. simpl. intros [= <-]. exact Hn.
  - apply Hm.
Qed.

Lemma issue_book_keeps_bounds s b u d now :
  copies_in_bounds s -> copies_in_bounds (snd (Lending.issue_book s b u d now)).
Proof.
  intros Hs. unfold copies_in_bounds in *.
  destruct (issue_book_result s b u d now)
    as [(_ & -> & _)|(row & l & Hrow & Hpos & Hle & _ & _ & _ & -> & _)].
  - exact Hs.
  - apply alter_keeps_bounds with row; [assumption..|lia].
Qed.

Lemma return_book_keeps_bounds s id fine now :
  copies_in_bounds s -> copies_in_bounds (snd (Lending.return_book s id fine now)).
Proof.
  intros Hs. unfold copies_in_bounds in *.
  destruct (return_book_result s id fine now)
    as [(_ & -> & _)|(row & _ & _ & _ & [(_ & -> & _)|(b & Hb & _ & Hin & -> & _)])].
  - exact Hs.
  - exact Hs.
  - destruct (process_next_reservation_frame
                (copy_restored s id row b now fine) (l_book_id row))
      as (_ & _ & -> & _).
    simpl. apply alter_keeps_bounds with b; assumption.
Qed.

Lemma step_keeps_bounds s o : copies_in_bounds s -> copies_in_bounds (step s o).
Proof.
  destruct o; simpl;
    [apply issue_book_keeps_bounds | apply return_book_keeps_bounds].
Qed.

(** C1. [Book.update_availability] adds the change to [available_copies]
    (in the record and in the stored row) only when the new value lies in
    [0 .. total_copies]; when it does not, or when the call fails for any
    other reason, it returns [False] and neither the record nor the state
    changes. Consequently every sequence of [issue_book] and [return_book]
    calls keeps [0 <= available_copies <= total_copies] for every book. *)
Theorem update_availability_keeps_ledger_in_bounds :
  (forall s b change,
     let '(ok, b', s') := Book.update_availability s b change in
     (ok = true ->
        in_bounds b change /\
        Book.available_copies b' = Book.available_copies b + change /\
        exists id, Book.book_id b = Some id /\
          books s' = alter (set_available (Book.available_copies b + change)) id (books s))
     /\ (~ in_bounds b change -> ok = false)
     /\ (ok = false -> b' = b /\ s' = s))
  /\ (forall s ops, copies_in_bounds s -> copies_in_bounds (run s ops)).
Proof.
  split.
  - intros s b change.
    destruct (update_availability_cases s b change)
      as [(id & Hid & _ & _ & Hin & ->)|(_ & ->)].
    + split; [|split]; [|tauto|discriminate].
      intros _. repeat split; try apply Hin. exists id. split; [assumption|reflexivity].
    + split; [discriminate|]. split; auto.
  - intros s ops. revert s. unfold run.
    induction ops as [|o ops IH]; intros s Hs; simpl; [exact Hs|].
    apply IH, step_keeps_bounds, Hs.
Qed.

Lemma update_availability_keeps_ledger_in_bounds_witness :
  copies_in_bounds one_copy_library /\
  copies_in_bounds
    (run one_copy_library
       [Issue 1 1 14 (date 2024 1 1); Issue 1 2 14 (date 2024 1 2);
        Return 1 0 (date 2024 1 20); Return 1 0 (date 2024 1 21)]).
Proof.
  assert (H : copies_in_bounds one_copy_library).
  { unfold copies_in_bounds, one_copy_library. simpl.
    apply map_Forall_singleton. simpl. lia. }
  split; [exact H|].
  apply (proj2 update_availability_keeps_ledger_in_bounds), H.
Defined.

(** ** Issue is all or nothing *)

(** C3. When the book has no copy left ([available_copies] is 0, or below),
    [issue_book] returns [None] and the state is the one before the call.
    More generally, whenever [issue_book] returns [None] the [lending] and
    [books] tables are the ones before the call, and whenever it returns a
    loan, that loan is stored and exactly one copy has been taken: the loan
    record and the copy count change together or not at all. *)
Theorem issue_book_commits_or_rolls_back s b u d now :
  (forall row, books s !! b = Some row -> b_available_copies row <= 0 ->
     Lending.issue_book s b u d now = (None, s))
  /\ (fst (Lending.issue_book s b u d now) = None ->
        lending (snd (Lending.issue_book s b u d now)) = lending s /\
        books (snd (Lending.issue_book s b u d now)) = books s)
  /\ (forall l, fst (Lending.issue_book s b u d now) = Some l ->
        exists id row,
          Lending.lending_id l = Some id /\ lending s !! id = None /\
          lending (snd (Lending.issue_book s b u d now))
            = <[id := issued_row b u d now]> (lending s) /\
          books s !! b = Some row /\
          books (snd (Lending.issue_book s b u d now))
            = <[b := set_available (b_available_copies row - 1) row]> (books s)).
Proof.
  split; [|split].
  - intros row Hrow Hav. unfold Lending.issue_book.
    destruct (connected s) eqn:Hc; simpl; [|reflexivity].
    rewrite (book_get_by_id_lookup s b row Hc Hrow).
    unfold Book.is_available. simpl.
    destruct (Z.ltb_spec 0 (b_available_copies row)); [lia|reflexivity].
  - intros Hnone.
    destruct (issue_book_result s b u d now)
      as [(_ & Hb & Hl & _)|(row & l & _ & _ & _ & Hsome & _)].
    + split; assumption.
    + rewrite Hnone in Hsome. discriminate.
  - intros l Hl.
    destruct (issue_book_result s b u d now)
      as [(Hnone & _)|(row & l' & Hrow & _ & _ & Hsome & Hid & Hlend & Hbooks & _)].
    + rewrite Hl in Hnone. discriminate.
    + rewrite Hl in Hsome. injection Hsome as <-.
      exists (next_lending_id s), row.
      repeat split; try assumption; [apply next_lending_id_fresh|].
      rewrite Hbooks. apply map_eq. intros i. rewrite lookup_alter, lookup_insert.
      destruct (decide (b = i)) as [->|_]; [|reflexivity].
      rewrite Hrow. reflexivity.
Qed.

Lemma issue_book_commits_or_rolls_back_witness :
  Lending.issue_book no_copy_left 1 2 14 (date 2024 1 2) = (None, no_copy_left)
  /\ lending (snd (Lending.issue_book no_copy_left 1 2 14 (date 2024 1 2)))
     = lending no_copy_left.
Proof.
  pose proof (issue_book_commits_or_rolls_back no_copy_left 1 2 14 (date 2024 1 2))
    as (Hzero & Hnone & _).
  split.
  - apply (Hzero {| b_title := "Dune"; b_total_copies := 1; b_available_copies := 0 |});
      [reflexivity | simpl; lia].
  - apply Hnone. vm_compute. reflexivity.
Defined.

(** ** Promotion only notifies *)

(** C8. [_process_next_reservation] leaves every book (so every
    [available_copies]) and every reservation row (so every status: the
    promoted reservation stays pending) as they were, as well as the loans
    and users; all it may do to the stored data is append one row to
    [notifications]. *)
Theorem process_next_reservation_only_notifies s book_id :
  books (snd (Lending._process_next_reservation s book_id)) = books s /\
  reservations (snd (Lending._process_next_reservation s book_id)) = reservations s /\
  lending (snd (Lending._process_next_reservation s book_id)) = lending s /\
  users (snd (Lending._process_next_reservation s book_id)) = users s /\
  (notifications (snd (Lending._process_next_reservation s book_id)) = notifications s \/
   exists n, notifications (snd (Lending._process_next_reservation s book_id))
             = notifications s ++ [n]).
Proof.
  pose proof (process_next_reservation_frame s book_id) as H. simpl in H.
  tauto.
Qed.

(** ** Not connected *)

(** C10. When [db_manager.connected] is false, [issue_book] and
    [create_reservation] return [None], [return_book] returns [False],
    [get_queue_position] returns [None], and the state is untouched. *)
Theorem disconnected_operations_fail_without_effect s :
  connected s = false ->
  (forall b u d now, Lending.issue_book s b u d now = (None, s)) /\
  (forall id fine now, Lending.return_book s id fine now = (Returns false, s)) /\
  (forall b u now, Reservation.create_reservation s b u now = (None, s)) /\
  (forall b u, Reservation.get_queue_position s b u = None).
Proof.
  intros Hc.
  unfold Lending.issue_book, Lending.return_book, Reservation.create_reservation,
    Reservation.get_queue_position.
  rewrite Hc. simpl. repeat split.
Qed.

Lemma disconnected_operations_fail_without_effect_witness :
  Lending.issue_book offline_library 1 1 14 (date 2024 1 1) = (None, offline_library) /\
  Lending.return_book offline_library 1 0 (date 2024 1 1) = (Returns false, offline_library) /\
  Reservation.create_reservation offline_library 1 1 (date 2024 1 1) = (None, offline_library) /\
  Reservation.get_queue_position offline_library 1 1 = None.
Proof.
  pose proof (disconnected_operations_fail_without_effect offline_library eq_refl)
    as (Hi & Hr & Hc & Hq).
  split; [exact (Hi _ _ _ _)|]. split; [exact (Hr _ _ _)|].
  split; [exact (Hc _ _ _) | exact (Hq _ _)].
Defined.

(** ** Returning twice *)

Lemma return_book_pair s id fine now v s' :
  fst (Lending.return_book s id fine now) = v ->
  snd (Lending.return_book s id fine now) = s' ->
  Lending.return_book s id fine now = (v, s').
Proof. destruct (Lending.return_book s id fine now). simpl. congruence. Qed.

(** What a successful return leaves behind. *)
Lemma return_book_success s id fine now :
  fst (Lending.return_book s id fine now) = Returns true ->
  exists row b,
    connected s = true /\
    lending s !! id = Some row /\ l_status row = Active /\
    books s !! l_book_id row = Some b /\
    connected (snd (Lending.return_book s id fine now)) = true /\
    lending (snd (Lending.return_book s id fine now))
      = alter (fun _ => returned_row row now fine) id (lending s) /\
    books (snd (Lending.return_book s id fine now))
      = alter (set_available (b_available_copies b + 1)) (l_book_id row) (books s).
Proof.
  intros Hok.
  destruct (return_book_result s id fine now)
    as [(Hf & _)|(row & Hc & Hrow & Hst & [(Hf & _)|(b & Hb & _ & _ & Hs & _)])];
    try (rewrite Hok in Hf; discriminate).
  exists row, b. rewrite Hs.
  destruct (process_next_reservation_frame
              (copy_restored s id row b now fine) (l_book_id row))
    as (-> & _ & -> & _ & -> & _).
  simpl. auto 10.
Qed.

(** Where returning twice does behave as an idempotent operation: returning
    an active loan whose book (stored under a key other than 0) has a copy
    out succeeds, given a connection and given that the import inside
    [_process_next_reservation] resolves; and whenever a first
    [return_book] succeeds, a second one on the same loan returns [False]
    and leaves the state as the first left it, so that over the two calls
    [available_copies] of the book went up by exactly one. *)
Theorem return_book_twice_increments_once s id fine1 now1 fine2 now2 :
  (forall row b,
     connected s = true -> models_importable s = true ->
     lending s !! id = Some row -> l_status row = Active ->
     books s !! l_book_id row = Some b -> l_book_id row <> 0 ->
     0 <= b_available_copies b + 1 <= b_total_copies b ->
     fst (Lending.return_book s id fine1 now1) = Returns true)
  /\ (fst (Lending.return_book s id fine1 now1) = Returns true ->
      let s1 := snd (Lending.return_book s id fine1 now1) in
      Lending.return_book s1 id fine2 now2 = (Returns false, s1) /\
      exists row b,
        lending s !! id = Some row /\
        available_of s (l_book_id row) = Some (b_available_copies b) /\
        available_of s1 (l_book_id row) = Some (b_available_copies b + 1) /\
        available_of (snd (Lending.return_book s1 id fine2 now2)) (l_book_id row)
          = Some (b_available_copies b + 1)).
Proof.
  split.
  - intros row b Hc Hm Hrow Hst Hb Hne Hin.
    destruct (return_book_result s id fine1 now1)
      as [(_ & _ & [Hd|[Hd|(row' & Hr' & Hd)]])
         |(row' & _ & Hr' & _ & [(_ & _ & Hd)|(b' & _ & _ & _ & _ & Hf)])].
    + congruence.
    + congruence.
    + rewrite Hrow in Hr'. injection Hr' as <-. contradiction.
    + rewrite Hrow in Hr'. injection Hr' as <-.
      destruct Hd as [Hd|(b' & Hb' & Hd)]; [congruence|].
      rewrite Hb in Hb'. injection Hb' as <-. tauto.
    + rewrite Hf, Hm. reflexivity.
  - intros Hok s1.
    destruct (return_book_success s id fine1 now1 Hok)
      as (row & b & Hc & Hrow & Hst & Hb & Hc1 & Hl1 & Hb1).
    fold s1 in Hc1, Hl1, Hb1.
    assert (Hsecond : Lending.return_book s1 id fine2 now2 = (Returns false, s1)).
    { destruct (return_book_result s1 id fine2 now2)
        as [(Hf & Hs & _)|(row' & _ & Hr' & Hst' & _)].
      - apply return_book_pair; assumption.
      - rewrite Hl1, lookup_alter_eq, Hrow in Hr'. simpl in Hr'.
        injection Hr' as <-. discriminate. }
    split; [exact Hsecond|].
    exists row, b. rewrite Hsecond. simpl. unfold available_of.
    rewrite Hb1, lookup_alter_eq, Hb. auto.
Qed.

Lemma return_book_twice_increments_once_witness :
  fst (Lending.return_book no_copy_left 1 0 (date 2024 1 20)) = Returns true /\
  Lending.return_book (snd (Lending.return_book no_copy_left 1 0 (date 2024 1 20)))
    1 0 (date 2024 1 21)
  = (Returns false, snd (Lending.return_book no_copy_left 1 0 (date 2024 1 20))).
Proof.
  pose proof (return_book_twice_increments_once no_copy_left 1 0 (date 2024 1 20)
                0 (date 2024 1 21)) as (Hfirst & Hsecond).
  assert (H : fst (Lending.return_book no_copy_left 1 0 (date 2024 1 20)) = Returns true).
  { apply (Hfirst (issued_row 1 1 14 (date 2024 1 1))
             {| b_title := "Dune"; b_total_copies := 1; b_available_copies := 0 |});
      try reflexivity; simpl; lia. }
  split; [exact H|]. exact (proj1 (Hsecond H)).
Defined.

(** Without the import no [return_book] returns [True]. *)
Lemma return_book_needs_the_import s id fine now :
  models_importable s = false ->
  fst (Lending.return_book s id fine now) <> Returns true.
Proof.
  intros Hm.
  destruct (return_book_result s id fine now)
    as [(-> & _)|(row & _ & _ & _ & [(-> & _)|(b & _ & _ & _ & _ & ->)])];
    try discriminate.
  rewrite Hm. discriminate.
Qed.

(** C7 at two states in which loan 1 is active. At
    [no_copy_left_as_shipped], where the ledger agrees with the loans and
    the module search path is the one the entry points set up, the first
    [return_book] does not succeed: it rewrites the loan, restores the copy
    and then raises [ModuleNotFoundError] from the import inside
    [_process_next_reservation]; the second returns [False]. At
    [shelf_counted_full] both calls return [False], the loan ends up
    returned and [available_copies] is never incremented. *)
Theorem return_book_twice_first_call_does_not_succeed :
  (let s := no_copy_left_as_shipped in
   let r1 := Lending.return_book s 1 0 (date 2024 1 20) in
   let r2 := Lending.return_book (snd r1) 1 0 (date 2024 1 21) in
   (l_status <$> lending s !! 1) = Some Active /\
   fst r1 = Raises ModuleNotFoundError /\
   fst r2 = Returns false /\
   (l_status <$> lending (snd r1) !! 1) = Some Returned /\
   available_of s 1 = Some 0 /\
   available_of (snd r1) 1 = Some 1 /\
   available_of (snd r2) 1 = Some 1)
  /\
  (let s := shelf_counted_full in
   let r1 := Lending.return_book s 1 0 (date 2024 1 20) in
   let r2 := Lending.return_book (snd r1) 1 0 (date 2024 1 21) in
   (l_status <$> lending s !! 1) = Some Active /\
   fst r1 = Returns false /\
   fst r2 = Returns false /\
   (l_status <$> lending (snd r2) !! 1) = Some Returned /\
   available_of s 1 = Some 1 /\
   available_of (snd r1) 1 = Some 1 /\
   available_of (snd r2) 1 = Some 1).
Proof. vm_compute. repeat split. Qed.

(** ** The fine recorded by a return *)

(** C4, as stated, fails: returning the loan due on 2024-01-10 on
    2024-01-15 without passing a fine succeeds and stores a fine of 0,
    although [calculate_fine] gives 5 for that loan at that time. *)
Lemma return_book_without_fine_records_zero :
  let now := date 2024 1 15 in
  let r := Lending.return_book loan_due_jan_10 1 default_fine_amount now in
  fst r = Returns true /\
  (l_due_date <$> lending loan_due_jan_10 !! 1) = Some (date 2024 1 10) /\
  Qeq (Lending.calculate_fine
         (Lending._load_from_dict (1, issued_row 1 1 14 (date 2023 12 27)))
         now default_fine_per_day) 5%Q /\
  (l_fine_amount <$> lending (snd r) !! 1) = Some 0%Q /\
  ~ Qeq 0%Q 5%Q.
Proof.
  vm_compute. repeat split; try reflexivity. discriminate.
Qed.

(** C4, amended. A successful [return_book lending_id fine_amount] found
    the loan active and leaves its row with [return_date = now],
    [status = 'returned'] and [fine_amount] equal to the argument the caller
    passed (0.0 when none is passed; the fine calculator is not consulted),
    the other columns as they were; and the book's [available_copies] is
    one more than before. *)
Theorem return_book_records_given_fine s id fine now :
  fst (Lending.return_book s id fine now) = Returns true ->
  exists row b,
    lending s !! id = Some row /\ l_status row = Active /\
    lending (snd (Lending.return_book s id fine now)) !! id
      = Some {| l_book_id := l_book_id row; l_user_id := l_user_id row;
                l_issue_date := l_issue_date row; l_due_date := l_due_date row;
                l_return_date := Some now; l_fine_amount := fine;
                l_status := Returned |} /\
    available_of s (l_book_id row) = Some (b_available_copies b) /\
    available_of (snd (Lending.return_book s id fine now)) (l_book_id row)
      = Some (b_available_copies b + 1).
Proof.
  intros Hok.
  destruct (return_book_success s id fine now Hok)
    as (row & b & _ & Hrow & Hst & Hb & _ & Hl & Hbk).
  exists row, b. unfold available_of.
  rewrite Hl, Hbk, !lookup_alter_eq, Hrow, Hb. auto.
Qed.

Lemma return_book_records_given_fine_witness :
  exists row b,
    lending loan_due_jan_10 !! 1 = Some row /\ l_status row = Active /\
    lending (snd (Lending.return_book loan_due_jan_10 1 (7 # 2) (date 2024 1 15))) !! 1
      = Some {| l_book_id := l_book_id row; l_user_id := l_user_id row;
                l_issue_date := l_issue_date row; l_due_date := l_due_date row;
                l_return_date := Some (date 2024 1 15); l_fine_amount := 7 # 2;
                l_status := Returned |} /\
    available_of loan_due_jan_10 (l_book_id row) = Some (b_available_copies b) /\
    available_of (snd (Lending.return_book loan_due_jan_10 1 (7 # 2) (date 2024 1 15)))
      (l_book_id row) = Some (b_available_copies b + 1).
Proof.
  apply (return_book_records_given_fine loan_due_jan_10 1 (7 # 2) (date 2024 1 15)).
  vm_compute. reflexivity.
Defined.

(** ** The fine calculation *)

(** C9, as stated, fails: for a loan due on 2024-01-10 that was returned on
    2024-01-15 (status 'returned'), [calculate_fine] gives 0 whatever the
    time, while the formula on the due and return dates gives 5. *)
Lemma calculate_fine_of_returned_loan_is_zero :
  let l := loan_record (date 2024 1 10) (Some (date 2024 1 15)) Returned in
  Lending.calculate_fine l (date 2024 1 15) 1 = 0%Q /\
  fine_formula (date 2024 1 10) (date 2024 1 15) 1 = 5%Q /\
  ~ Qeq (Lending.calculate_fine l (date 2024 1 15) 1)
        (fine_formula (date 2024 1 10) (date 2024 1 15) 1).
Proof.
  vm_compute. repeat split; discriminate.
Qed.

Lemma td_days_nonneg td : 0 <= td -> 0 <= td_days td.
Proof. intros H. unfold td_days, us_per_day. apply Z.div_pos; lia. Qed.

(** C9, amended. [calculate_fine] depends on the loan's status and due
    date, on the current time and on the rate, and not on the stored return
    date: for a loan whose status is 'active' it is the formula
    [max(0, daysBetween(due_date, now)) * fine_per_day] taken at the current
    time, and for a loan of any other status it is 0. For an active loan due
    2024-01-10 and rate 1.0 it is 5.0 on 2024-01-15 and 0.0 on 2024-01-05. *)
Theorem calculate_fine_of_active_loan l now rate :
  (forall due, Lending.status l = Active -> Lending.due_date l = Some due ->
     Qeq (Lending.calculate_fine l now rate) (fine_formula due now rate))
  /\ (Lending.status l <> Active -> Lending.calculate_fine l now rate = 0%Q)
  /\ Lending.calculate_fine (loan_record (date 2024 1 10) None Active)
       (date 2024 1 15) 1 = 5%Q
  /\ Lending.calculate_fine (loan_record (date 2024 1 10) None Active)
       (date 2024 1 5) 1 = 0%Q.
Proof.
  split; [|split; [|split; reflexivity]].
  - intros due Hst Hdue.
    unfold Lending.calculate_fine, Lending.days_overdue, Lending.is_overdue,
      fine_formula, days_between.
    rewrite Hdue, Hst. simpl.
    destruct (Z.ltb_spec due now) as [Hlt|Hge]; simpl.
    + destruct (Z.leb_spec now due); [lia|].
      pose proof (td_days_nonneg (now - due)) as Hnn.
      destruct (Z.ltb_spec 0 (td_days (now - due))) as [Hpos|Hzero].
      * rewrite Z.max_r by lia. reflexivity.
      * replace (td_days (now - due)) with 0 by lia. simpl.
        unfold Qeq. simpl. lia.
    + destruct (Z.leb_spec now due); [|lia]. simpl. unfold Qeq. simpl. lia.
  - intros Hst.
    unfold Lending.calculate_fine, Lending.days_overdue, Lending.is_overdue.
    destruct (Lending.due_date l); [|reflexivity].
    destruct (Lending.status l); try contradiction; reflexivity.
Qed.

Lemma calculate_fine_of_active_loan_witness :
  Qeq (Lending.calculate_fine (loan_record (date 2024 1 10) None Active)
         (date 2024 1 18) (1 # 2))
      (fine_formula (date 2024 1 10) (date 2024 1 18) (1 # 2)) /\
  Lending.calculate_fine (loan_record (date 2024 1 10) (Some (date 2024 1 15)) Returned)
    (date 2024 1 18) (1 # 2) = 0%Q.
Proof.
  split.
  - apply (proj1 (calculate_fine_of_active_loan
                    (loan_record (date 2024 1 10) None Active) (date 2024 1 18) (1 # 2)));
      reflexivity.
  - apply (proj1 (proj2 (calculate_fine_of_active_loan
                    (loan_record (date 2024 1 10) (Some (date 2024 1 15)) Returned)
                    (date 2024 1 18) (1 # 2)))).
    discriminate.
Defined.

(** ** A failed return is not undone *)

(** Whenever the increment is rejected because the count would exceed
    [total_copies], [return_book] returns [False] and leaves the loan row
    rewritten as returned. *)
Lemma return_book_rejected_increment s id fine now row b :
  connected s = true -> lending s !! id = Some row -> l_status row = Active ->
  books s !! l_book_id row = Some b ->
  b_total_copies b < b_available_copies b + 1 ->
  Lending.return_book s id fine now = (Returns false, loan_marked s id row now fine).
Proof.
  intros Hc Hrow Hst Hb Hfull.
  destruct (return_book_result s id fine now)
    as [(_ & _ & [Hd|[Hd|(row' & Hr' & Hd)]])
       |(row' & _ & Hr' & _ & [(Hf & Hs & _)|(b' & Hb' & _ & Hin & _)])];
    try congruence.
  - rewrite Hrow in Hr'. injection Hr' as <-. apply return_book_pair; assumption.
  - rewrite Hrow in Hr'. injection Hr' as <-.
    rewrite Hb in Hb'. injection Hb' as <-. lia.
Qed.

(** C2 at [shelf_counted_full]: the increment is rejected (it would exceed
    [total_copies]) and [return_book] returns [False], but the loan row it
    rewrote before stays 'returned': the state is not the one before the
    call, and the returned loan has no matching increment. *)
Theorem return_book_rejected_increment_keeps_loan_returned :
  let s := shelf_counted_full in
  let r := Lending.return_book s 1 0 (date 2024 1 20) in
  fst r = Returns false /\
  (l_status <$> lending s !! 1) = Some Active /\
  (l_status <$> lending (snd r) !! 1) = Some Returned /\
  (l_return_date <$> lending (snd r) !! 1) = Some (Some (date 2024 1 20)) /\
  available_of s 1 = Some 1 /\
  available_of (snd r) 1 = Some 1.
Proof. vm_compute. repeat split. Qed.

(** ** Promotion and the notified flag *)

(** C5 at [two_waiting]: [_process_next_reservation] picks the earliest
    pending reservation and inserts exactly one notification, for its
    holder, but the reservation's [notification_sent] stays false; the
    sibling [Reservation.notify_user] on the same reservation inserts the
    notification and does set the flag. *)
Theorem process_next_reservation_leaves_flag_unset :
  let s' := snd (Lending._process_next_reservation two_waiting 1) in
  map (fun kv => n_user_id (snd kv)) (notifications s') = [2] /\
  reservations s' = [(1, first_in_line); (2, second_in_line)] /\
  r_notification_sent first_in_line = false /\
  let '(sent, _, s'') :=
    Reservation.notify_user two_waiting
      (Reservation._load_from_dict (1, first_in_line)) None in
  sent = true /\
  map (fun kv => n_user_id (snd kv)) (notifications s'') = [2] /\
  map (fun kv => r_notification_sent (snd kv)) (reservations s'') = [true; false].
Proof. vm_compute. repeat split. Qed.

(** ** Queue position of someone not in the queue *)

Lemma filter_and_false {A} (p : A -> bool) (l : list A) :
  List.filter (fun x => p x && false) l = [].
Proof.
  induction l as [|x l IH]; simpl; [reflexivity|].
  rewrite andb_false_r. exact IH.
Qed.

(** On a connected manager [get_queue_position] never returns [None], and
    for a holder without a pending reservation of the book it returns 1. *)
Lemma get_queue_position_no_reservation s b u :
  connected s = true ->
  (exists n, Reservation.get_queue_position s b u = Some n) /\
  (select_pending_reservation s b u = Some [] ->
   Reservation.get_queue_position s b u = Some 1).
Proof.
  intros Hc.
  unfold Reservation.get_queue_position, select_queue_position,
    select_pending_reservation, own_reservation_date, execute_query.
  rewrite Hc. simpl. split; [eauto|].
  intros [= ->]. simpl. rewrite filter_and_false. reflexivity.
Qed.

(** C6 at [two_waiting]: users 2 and 3 get positions 1 and 2, and user 4,
    who has no pending reservation for the book, gets 1 and not [None];
    so does anyone asking about a book nobody waits for. *)
Theorem get_queue_position_without_reservation_is_one :
  Reservation.get_queue_position two_waiting 1 2 = Some 1 /\
  Reservation.get_queue_position two_waiting 1 3 = Some 2 /\
  select_pending_reservation two_waiting 1 4 = Some [] /\
  Reservation.get_queue_position two_waiting 1 4 = Some 1 /\
  Reservation.get_queue_position one_copy_library 1 1 = Some 1.
Proof. vm_compute. repeat split. Qed.

(** ** The scenario of the specification *)

(** One title with one copy: user 1 borrows it, user 2 is refused and
    reserves, user 1 returns it (user 2 is notified), user 2 borrows it. *)
Example circulation_scenario :
  let s0 := one_copy_library in
  let '(l1, s1) := Lending.issue_book s0 1 1 14 (date 2024 1 1) in
  let '(l2, s2) := Lending.issue_book s1 1 2 14 (date 2024 1 2) in
  let '(r3, s3) := Reservation.create_reservation s2 1 2 (date 2024 1 2) in
  let '(o4, s4) := Lending.return_book s3 1 0 (date 2024 1 10) in
  let '(l5, s5) := Lending.issue_book s4 1 2 14 (date 2024 1 11) in
  (Lending.lending_id <$> l1) = Some (Some 1) /\ available_of s1 1 = Some 0 /\
  l2 = None /\ s2 = s1 /\
  (Reservation.reservation_id <$> r3) = Some (Some 1) /\
  o4 = Returns true /\ available_of s4 1 = Some 1 /\
  map (fun kv => n_user_id (snd kv)) (notifications s4) = [2] /\
  (Lending.lending_id <$> l5) = Some (Some 2) /\ available_of s5 1 = Some 0 /\
  map (fun kv => r_status (snd kv)) (reservations s5) = [Pending].
Proof. vm_compute. repeat split. Qed.

(** * Further properties of the circulation code *)

(** ** Counting rows of a keyed table *)

Lemma filter_length_Permutation {A} (p : A -> bool) (l l' : list A) :
  Permutation l l' -> length (List.filter p l) = length (List.filter p l').
Proof.
  induction 1 as [|x l l' _ IH|x y l|l l' l'' _ IH1 _ IH2]; simpl.
  - reflexivity.
  - destruct (p x); simpl; congruence.
  - destruct (p x), (p y); reflexivity.
  - congruence.
Qed.

Lemma count_rows_nonneg {A} (p : Z * A -> bool) (m : gmap Z A) : 0 <= count_rows p m.
Proof. unfold count_rows. lia. Qed.

Lemma count_rows_insert {A} (p : Z * A -> bool) (m : gmap Z A) i x :
  m !! i = None ->
  count_rows p (<[i := x]> m) = count_rows p m + (if p (i, x) then 1 else 0).
Proof.
  intros Hi. unfold count_rows.
  rewrite (filter_length_Permutation p _ _ (map_to_list_insert m i x Hi)). simpl.
  destruct (p (i, x)); simpl; lia.
Qed.

Lemma count_rows_delete {A} (p : Z * A -> bool) (m : gmap Z A) i x :
  m !! i = Some x ->
  count_rows p m = count_rows p (delete i m) + (if p (i, x) then 1 else 0).
Proof.
  intros Hi. unfold count_rows.
  rewrite <- (filter_length_Permutation p _ _ (map_to_list_delete m i x Hi)). simpl.
  destruct (p (i, x)); simpl; lia.
Qed.

Lemma alter_as_insert {A} (f : A -> A) (m : gmap Z A) i x :
  m !! i = Some x -> alter f i m = <[i := f x]> (delete i m).
Proof.
  intros Hi. apply map_eq. intros j.
  rewrite lookup_alter, lookup_insert, lookup_delete.
  destruct (decide (i = j)) as [->|_]; [rewrite Hi|]; reflexivity.
Qed.

Lemma count_rows_alter {A} (p : Z * A -> bool) (f : A -> A) (m : gmap Z A) i x :
  m !! i = Some x ->
  count_rows p (alter f i m)
  = count_rows p m - (if p (i, x) then 1 else 0) + (if p (i, f x) then 1 else 0).
Proof.
  intros Hi. rewrite (alter_as_insert f m i x Hi).
  rewrite count_rows_insert by apply lookup_delete_eq.
  rewrite (count_rows_delete p m i x Hi). lia.
Qed.

(** A query over a keyed table has no row exactly when no stored row
    satisfies its condition. *)
Lemma filter_map_to_list_nil {A} (p : Z * A -> bool) (m : gmap Z A) :
  List.filter p (map_to_list m) = [] <->
  forall i x, m !! i = Some x -> p (i, x) = false.
Proof.
  split.
  - intros Hnil i x Hi.
    destruct (p (i, x)) eqn:Hp; [|reflexivity].
    assert (Hin : In (i, x) (List.filter p (map_to_list m))).
    { apply filter_In. split; [|assumption].
      apply list_elem_of_In, elem_of_map_to_list, Hi. }
    rewrite Hnil in Hin. destruct Hin.
  - intros Hall.
    destruct (List.filter p (map_to_list m)) as [|[i x] rest] eqn:E; [reflexivity|].
    assert (Hin : In (i, x) (List.filter p (map_to_list m))) by (rewrite E; left; reflexivity).
    apply filter_In in Hin as [Hin Hp].
    apply list_elem_of_In, elem_of_map_to_list in Hin.
    rewrite (Hall i x Hin) in Hp. discriminate.
Qed.

(** ** What a successful issue required *)

Lemma user_get_by_id_Some s id usr :
  User.get_by_id s id = Some usr ->
  connected s = true /\
  exists row, users s !! id = Some row /\ usr = User._load_from_dict (id, row).
Proof.
  unfold User.get_by_id, select_user_by_id, execute_query.
  destruct (connected s); simpl; [|discriminate].
  destruct (users s !! id) as [row|]; [|discriminate].
  intros [= <-]. eauto.
Qed.

Lemma truthy_rows_false {A} (l : list A) : truthy_rows (Some l) = false -> l = [].
Proof. destruct l; [reflexivity|discriminate]. Qed.

Lemma issue_book_Some s b u d now l :
  fst (Lending.issue_book s b u d now) = Some l ->
  connected s = true /\ b <> 0 /\
  (exists urow, users s !! u = Some urow /\ u_is_active urow = true) /\
  List.filter (active_for b u) (map_to_list (lending s)) = [] /\
  l = {| Lending.lending_id := Some (next_lending_id s);
         Lending.book_id := b; Lending.user_id := u;
         Lending.issue_date := now;
         Lending.due_date := Some (now + timedelta_days d);
         Lending.return_date := None; Lending.fine_amount := 0%Q;
         Lending.status := Active |}.
Proof.
  unfold Lending.issue_book.
  destruct (connected s) eqn:Hc; simpl; [|discriminate].
  destruct (Book.get_by_id s b) as [book|] eqn:Hb; [|discriminate].
  apply book_get_by_id_Some in Hb as (_ & row & Hrow & ->).
  destruct (Book.is_available _); simpl; [|discriminate].
  destruct (User.get_by_id s u) as [user|] eqn:Hu; [|discriminate].
  apply user_get_by_id_Some in Hu as (_ & urow & Hurow & ->).
  destruct (User.is_active _) eqn:Hact; simpl; [|discriminate].
  destruct (truthy_rows _) eqn:Hex; [discriminate|].
  unfold select_active_lending, execute_query in Hex. rewrite Hc in Hex.
  apply truthy_rows_false in Hex.
  unfold Lending.save, insert_into_lending, execute_update, get_last_insert_id.
  rewrite Hc. simpl. rewrite Hc.
  set (s1 := insert_lending _ _ s).
  destruct (update_availability_cases s1 (Book._load_from_dict (b, row)) (-1))
    as [(id' & Hid & Hne & _ & _ & ->)|(_ & ->)].
  - simpl in Hid. injection Hid as <-. simpl. intros [= <-].
    repeat split; eauto.
  - destruct (Lending.delete s1 _). discriminate.
Qed.

(** ** The ledger agrees with the loans *)

Lemma active_loan_counts s i r :
  lending s !! i = Some r -> l_status r = Active ->
  1 <= active_loans_of s (l_book_id r).
Proof.
  intros Hi Hst. unfold active_loans_of.
  rewrite (count_rows_delete _ _ i r Hi).
  unfold active_of_book at 2. simpl. rewrite Z.eqb_refl, Hst. simpl.
  pose proof (count_rows_nonneg (active_of_book (l_book_id r)) (delete i (lending s))).
  lia.
Qed.

(** In a consistent state the copy of an active loan can always be put
    back. *)
Lemma consistent_active_loan_has_room s i r :
  ledger_consistent s -> lending s !! i = Some r -> l_status r = Active ->
  l_book_id r <> 0 /\
  exists b, books s !! l_book_id r = Some b /\
    0 <= b_available_copies b + 1 <= b_total_copies b.
Proof.
  intros [Hsum Hloans] Hi Hst.
  destruct (Hloans i r Hi Hst) as [Hne [b Hb]].
  split; [assumption|]. exists b. split; [assumption|].
  destruct (Hsum _ _ Hb) as [Heq Hnn].
  pose proof (active_loan_counts s i r Hi Hst). lia.
Qed.

Lemma ledger_consistent_same s s' :
  books s' = books s -> lending s' = lending s ->
  ledger_consistent s -> ledger_consistent s'.
Proof.
  unfold ledger_consistent, active_loans_of. intros -> ->. tauto.
Qed.

Lemma issue_book_keeps_ledger s b u d now :
  ledger_consistent s -> ledger_consistent (snd (Lending.issue_book s b u d now)).
Proof.
  intros Hs.
  destruct (issue_book_result s b u d now)
    as [(_ & Hb & Hl & _)
       |(row & l & Hrow & Hpos & _ & Hsome & _ & Hl & Hb & _)].
  - apply (ledger_consistent_same s); assumption.
  - destruct (issue_book_Some s b u d now l Hsome) as (_ & Hne & _).
    destruct Hs as [Hsum Hloans].
    unfold ledger_consistent, active_loans_of. rewrite Hl, Hb. split.
    + intros b' row' Hb'.
      rewrite count_rows_insert by apply next_lending_id_fresh.
      unfold active_of_book at 2. simpl.
      apply lookup_alter_Some in Hb' as [(<- & x & Hx & ->)|(Hnb & Hb')].
      * rewrite Hrow in Hx. injection Hx as <-. simpl.
        rewrite Z.eqb_refl. simpl.
        destruct (Hsum _ _ Hrow) as [Heq _]. unfold active_loans_of in Heq. lia.
      * destruct (Z.eqb_spec b b'); [contradiction|]. simpl.
        destruct (Hsum _ _ Hb') as [Heq Hnn]. unfold active_loans_of in Heq. lia.
    + intros i r Hi Hst.
      rewrite lookup_alter_is_Some.
      apply lookup_insert_Some in Hi as [(_ & <-)|(_ & Hi)].
      * simpl. split; [assumption|]. rewrite Hrow. eauto.
      * apply (Hloans i r Hi Hst).
Qed.

Lemma returned_keeps_ledger s id row b now fine s' :
  ledger_consistent s ->
  lending s !! id = Some row -> l_status row = Active ->
  books s !! l_book_id row = Some b ->
  lending s' = alter (fun _ => returned_row row now fine) id (lending s) ->
  books s' = alter (set_available (b_available_copies b + 1)) (l_book_id row) (books s) ->
  ledger_consistent s'.
Proof.
  intros [Hsum Hloans] Hrow Hst Hb Hl' Hb'.
  unfold ledger_consistent, active_loans_of. rewrite Hl', Hb'. split.
  - intros b' row' Hlook.
    rewrite (count_rows_alter _ _ _ id row Hrow).
    unfold active_of_book at 2 3. simpl. rewrite Hst. simpl.
    rewrite andb_false_r, andb_true_r.
    apply lookup_alter_Some in Hlook as [(<- & x & Hx & ->)|(Hnb & Hlook)].
    + rewrite Hb in Hx. injection Hx as <-. simpl. rewrite Z.eqb_refl.
      destruct (Hsum _ _ Hb) as [Heq Hnn]. unfold active_loans_of in Heq. lia.
    + destruct (Z.eqb_spec (l_book_id row) b'); [contradiction|].
      destruct (Hsum _ _ Hlook) as [Heq Hnn]. unfold active_loans_of in Heq. lia.
  - intros i r Hi Hact.
    rewrite lookup_alter_is_Some.
    apply lookup_alter_Some in Hi as [(<- & x & _ & ->)|(_ & Hi)].
    + discriminate.
    + apply (Hloans i r Hi Hact).
Qed.

Lemma return_book_keeps_ledger s id fine now :
  ledger_consistent s -> ledger_consistent (snd (Lending.return_book s id fine now)).
Proof.
  intros Hs.
  destruct (return_book_result s id fine now)
    as [(_ & -> & _)
       |(row & _ & Hrow & Hst & [(_ & _ & Hbad)|(b & Hb & _ & _ & -> & _)])].
  - exact Hs.
  - exfalso.
    destruct (consistent_active_loan_has_room s id row Hs Hrow Hst)
      as (Hne & b & Hb & Hin).
    destruct Hbad as [Hnone|(b' & Hb' & [Hz|Hout])]; [congruence|congruence|].
    rewrite Hb in Hb'. injection Hb' as <-. contradiction.
  - destruct (process_next_reservation_frame
                (copy_restored s id row b now fine) (l_book_id row))
      as (_ & _ & Hbk & _ & Hl & _).
    apply (returned_keeps_ledger s id row b now fine); assumption.
Qed.

(** ** Reservations: what each method does to the table *)

Lemma create_reservation_result s b u now :
  let r := Reservation.create_reservation s b u now in
  (fst r = None /\ snd r = s)
  \/ (exists brow urow,
        connected s = true /\
        books s !! b = Some brow /\ b_available_copies brow <= 0 /\
        users s !! u = Some urow /\ u_is_active urow = true /\
        List.filter (pending_for b u) (reservations s) = [] /\
        List.filter (active_for b u) (map_to_list (lending s)) = [] /\
        fst r = Some (Reservation._load_from_dict
                        (next_reservation_id s, reserved_row b u now)) /\
        snd r = insert_reservation (next_reservation_id s) (reserved_row b u now) s).
Proof.
  unfold Reservation.create_reservation.
  destruct (connected s) eqn:Hc; simpl; [|left; tauto].
  destruct (Book.get_by_id s b) as [book|] eqn:Hb; [|left; tauto].
  apply book_get_by_id_Some in Hb as (_ & brow & Hbrow & ->).
  destruct (User.get_by_id s u) as [user|] eqn:Hu; [|left; tauto].
  apply user_get_by_id_Some in Hu as (_ & urow & Hurow & ->).
  destruct (User.is_active _) eqn:Hact; simpl; [|left; tauto].
  destruct (Book.is_available _) eqn:Hav; [left; tauto|].
  unfold Book.is_available in Hav. simpl in Hav. apply Z.ltb_ge in Hav.
  destruct (truthy_rows (select_pending_reservation s b u)) eqn:Hp; [left; tauto|].
  destruct (truthy_rows (select_active_lending s b u)) eqn:Ha; [left; tauto|].
  unfold select_pending_reservation, execute_query in Hp. rewrite Hc in Hp.
  unfold select_active_lending, execute_query in Ha. rewrite Hc in Ha.
  apply truthy_rows_false in Hp. apply truthy_rows_false in Ha.
  unfold Reservation.save, insert_into_reservations, execute_update, get_last_insert_id.
  rewrite Hc. simpl. rewrite Hc.
  right. exists brow, urow. simpl in Hact. auto 10.
Qed.

Lemma reservation_get_by_id_Some s id r :
  Reservation.get_by_id s id = Some r ->
  connected s = true /\
  exists row, In (id, row) (reservations s) /\ r = Reservation._load_from_dict (id, row).
Proof.
  unfold Reservation.get_by_id, select_reservation_by_id, execute_query.
  destruct (connected s); simpl; [|discriminate].
  destruct (List.filter _ (reservations s)) as [|[k row] rest] eqn:E; [discriminate|].
  intros [= <-]. split; [reflexivity|].
  assert (Hin : In (k, row) (List.filter (fun kv => fst kv =? id) (reservations s)))
    by (rewrite E; left; reflexivity).
  apply filter_In in Hin as [Hin Hk]. simpl in Hk. apply Z.eqb_eq in Hk. subst k.
  exists row. split; [assumption|reflexivity].
Qed.

(** Saving a record that has an id rewrites its row and nothing else. *)
Lemma reservation_save_existing s (r : Reservation.t) id :
  connected s = true -> Reservation.reservation_id r = Some id ->
  Reservation.save s r
  = (true, r, set_reservations (rewritten id (Reservation.to_row r) (reservations s)) s).
Proof.
  intros Hc Hid. unfold Reservation.save, update_reservation, execute_update.
  rewrite Hc, Hid. reflexivity.
Qed.

(** The ends of [cancel] and [fulfill]: refused with nothing changed, or
    the row rewritten with the new status. *)
Lemma cancel_result s (r : Reservation.t) :
  (Reservation.cancel s r = (false, r, s) /\
   (connected s = false \/ truthy_id (Reservation.reservation_id r) = false \/
    Reservation.status r <> Pending))
  \/ (exists id, connected s = true /\ Reservation.reservation_id r = Some id /\ id <> 0 /\
        Reservation.status r = Pending /\
        Reservation.cancel s r
        = (true, Reservation.with_status r Cancelled,
           set_reservations
             (rewritten id (Reservation.to_row (Reservation.with_status r Cancelled))
                (reservations s)) s)).
Proof.
  unfold Reservation.cancel.
  destruct (connected s) eqn:Hc; simpl; [|left; tauto].
  destruct (Reservation.reservation_id r) as [id|] eqn:Hid; simpl; [|left; tauto].
  destruct (Z.eqb_spec id 0); simpl; [left; tauto|].
  destruct (Reservation.status r) eqn:Hst; simpl;
    try (left; split; [reflexivity|right; right; discriminate]).
  right. exists id.
  rewrite (reservation_save_existing s _ id Hc) by assumption. auto.
Qed.

Lemma fulfill_result s (r : Reservation.t) :
  (Reservation.fulfill s r = (false, r, s) /\
   (connected s = false \/ truthy_id (Reservation.reservation_id r) = false \/
    Reservation.status r <> Pending))
  \/ (exists id, connected s = true /\ Reservation.reservation_id r = Some id /\ id <> 0 /\
        Reservation.status r = Pending /\
        Reservation.fulfill s r
        = (true, Reservation.with_status r Fulfilled,
           set_reservations
             (rewritten id (Reservation.to_row (Reservation.with_status r Fulfilled))
                (reservations s)) s)).
Proof.
  unfold Reservation.fulfill.
  destruct (connected s) eqn:Hc; simpl; [|left; tauto].
  destruct (Reservation.reservation_id r) as [id|] eqn:Hid; simpl; [|left; tauto].
  destruct (Z.eqb_spec id 0); simpl; [left; tauto|].
  destruct (Reservation.status r) eqn:Hst; simpl;
    try (left; split; [reflexivity|right; right; discriminate]).
  right. exists id.
  rewrite (reservation_save_existing s _ id Hc) by assumption. auto.
Qed.

(** The ends of [notify_user]: refused with nothing changed, or one
    notification appended and the row rewritten with the flag set. *)
Lemma notify_user_result s (r : Reservation.t) message :
  (Reservation.notify_user s r message = (false, r, s) /\
   (connected s = false \/ truthy_id (Reservation.reservation_id r) = false))
  \/ (exists id, connected s = true /\ Reservation.reservation_id r = Some id /\
        id <> 0 /\
        Reservation.notify_user s r message
        = (true, Reservation.with_notification_sent r true,
           set_reservations
             (rewritten id
                (Reservation.to_row (Reservation.with_notification_sent r true))
                (reservations s))
             (insert_notification (next_notification_id s)
                {| n_user_id := Reservation.user_id r;
                   n_message :=
                     match message with
                     | Some (String c m) => String c m
                     | _ => Reservation.default_message s r
                     end;
                   n_type := ReservationNotice |} s))).
Proof.
  unfold Reservation.notify_user.
  destruct (connected s) eqn:Hc; simpl; [|left; tauto].
  destruct (Reservation.reservation_id r) as [id|] eqn:Hid; simpl; [|left; tauto].
  destruct (Z.eqb_spec id 0); simpl; [left; tauto|].
  right. exists id.
  unfold insert_into_notifications, execute_update. rewrite Hc.
  rewrite (reservation_save_existing _ _ id) by (simpl; assumption).
  simpl. auto.
Qed.

(** ** At most one pending reservation per book and user *)

Lemma filter_map_length_le {A} (p : A -> bool) (f : A -> A) (l : list A) :
  (forall x, In x l -> p (f x) = true -> p x = true) ->
  (length (List.filter p (map f l)) <= length (List.filter p l))%nat.
Proof.
  induction l as [|x l IH]; intros H; simpl; [lia|].
  assert (IH' := IH (fun y Hy => H y (or_intror Hy))).
  specialize (H x (or_introl eq_refl)).
  destruct (p (f x)) eqn:Hfx; destruct (p x) eqn:Hx; simpl; lia.
Qed.

Lemma filter_length_le {A} (p q : A -> bool) (l : list A) :
  (length (List.filter p (List.filter q l)) <= length (List.filter p l))%nat.
Proof.
  induction l as [|x l IH]; simpl; [lia|].
  destruct (q x); simpl; destruct (p x); simpl; lia.
Qed.

Lemma distinct_ids_same_row {A} (l : list (Z * A)) id r0 kv :
  NoDup (map fst l) -> In (id, r0) l -> In kv l -> fst kv = id -> kv = (id, r0).
Proof.
  induction l as [|[k x] l IH]; simpl; [tauto|].
  intros Hnd [H0|H0] [Hkv|Hkv] Hid.
  - congruence.
  - exfalso. apply NoDup_cons in Hnd as [Hnotin _]. apply Hnotin.
    injection H0 as -> ->. rewrite <- Hid.
    apply list_elem_of_In, in_map, Hkv.
  - exfalso. apply NoDup_cons in Hnd as [Hnotin _]. apply Hnotin.
    subst kv. simpl in Hid. subst k.
    apply list_elem_of_In. change id with (fst (id, r0)). apply in_map, H0.
  - apply NoDup_cons in Hnd as [_ Hnd]. apply IH; assumption.
Qed.

Lemma max_rowid_upper {A} (l : list (Z * A)) kv : In kv l -> fst kv <= max_rowid l.
Proof.
  induction l as [|x l IH]; simpl; [tauto|].
  intros [->|H]; [|specialize (IH H)]; unfold max_rowid in *; simpl; lia.
Qed.

Lemma next_reservation_id_fresh s : ~ In (next_reservation_id s) (map fst (reservations s)).
Proof.
  intros Hin. apply in_map_iff in Hin as (kv & Hk & Hin).
  pose proof (max_rowid_upper _ _ Hin) as H. unfold next_reservation_id in Hk. lia.
Qed.

Lemma rewritten_ids id r l : map fst (rewritten id r l) = map fst l.
Proof.
  unfold rewritten. rewrite map_map. apply map_ext.
  intros kv. destruct (fst kv =? id); reflexivity.
Qed.

(** Rewriting the row of a stored reservation with a row that is pending
    for a book and user only if the stored one was keeps the invariant. *)
Lemma rewritten_keeps_queue s s' id r0 r' :
  queue_wf s -> In (id, r0) (reservations s) ->
  (forall b u, pending_for b u (id, r') = true -> pending_for b u (id, r0) = true) ->
  reservations s' = rewritten id r' (reservations s) ->
  queue_wf s'.
Proof.
  intros [Hids Huniq] Hin Hp Hs'. unfold queue_wf, reservation_ids_distinct, unique_pending.
  rewrite Hs'. split.
  - rewrite rewritten_ids. exact Hids.
  - intros b u. specialize (Huniq b u).
    etransitivity; [|exact Huniq].
    apply filter_map_length_le. intros kv Hkv.
    destruct (Z.eqb_spec (fst kv) id) as [Hk|_]; [|tauto].
    rewrite (distinct_ids_same_row _ id r0 kv Hids Hin Hkv Hk). simpl. apply Hp.
Qed.

Lemma queue_wf_same s s' :
  reservations s' = reservations s -> queue_wf s -> queue_wf s'.
Proof.
  unfold queue_wf, reservation_ids_distinct, unique_pending. intros ->. tauto.
Qed.

Lemma create_reservation_keeps_queue s b u now :
  queue_wf s -> queue_wf (snd (Reservation.create_reservation s b u now)).
Proof.
  intros Hs.
  destruct (create_reservation_result s b u now)
    as [(_ & ->)|(brow & urow & _ & _ & _ & _ & _ & Hnone & _ & _ & ->)];
    [exact Hs|].
  destruct Hs as [Hids Huniq].
  unfold queue_wf, reservation_ids_distinct, unique_pending. simpl. split.
  - rewrite map_app. simpl. apply NoDup_app. split; [exact Hids|]. split.
    + intros x Hx [<-|[]]%list_elem_of_In.
      apply (next_reservation_id_fresh s), list_elem_of_In, Hx.
    + apply NoDup_singleton.
  - intros b' u'. rewrite List.filter_app, length_app. simpl.
    destruct (pending_for b' u' _) eqn:Hp; simpl.
    + unfold pending_for in Hp. simpl in Hp.
      apply andb_prop in Hp as [Hp _]. apply andb_prop in Hp as [Hb Hu].
      apply Z.eqb_eq in Hb, Hu. subst b' u'. rewrite Hnone. simpl. lia.
    + specialize (Huniq b' u'). lia.
Qed.

Lemma cancel_keeps_queue s id row :
  queue_wf s -> In (id, row) (reservations s) ->
  queue_wf (snd (Reservation.cancel s (Reservation._load_from_dict (id, row)))).
Proof.
  intros Hs Hin.
  destruct (cancel_result s (Reservation._load_from_dict (id, row)))
    as [(-> & _)|(id' & _ & Hid & _ & _ & ->)]; [exact Hs|].
  simpl in Hid. injection Hid as <-.
  apply (rewritten_keeps_queue s _ id row (with_row_status row Cancelled)); auto.
  intros b u. unfold pending_for. simpl. rewrite andb_false_r. discriminate.
Qed.

Lemma fulfill_keeps_queue s id row :
  queue_wf s -> In (id, row) (reservations s) ->
  queue_wf (snd (Reservation.fulfill s (Reservation._load_from_dict (id, row)))).
Proof.
  intros Hs Hin.
  destruct (fulfill_result s (Reservation._load_from_dict (id, row)))
    as [(-> & _)|(id' & _ & Hid & _ & _ & ->)]; [exact Hs|].
  simpl in Hid. injection Hid as <-.
  apply (rewritten_keeps_queue s _ id row (with_row_status row Fulfilled)); auto.
  intros b u. unfold pending_for. simpl. rewrite andb_false_r. discriminate.
Qed.

Lemma notify_user_keeps_queue s id row message :
  queue_wf s -> In (id, row) (reservations s) ->
  queue_wf (snd (Reservation.notify_user s (Reservation._load_from_dict (id, row)) message)).
Proof.
  intros Hs Hin.
  destruct (notify_user_result s (Reservation._load_from_dict (id, row)) message)
    as [(-> & _)|(id' & _ & Hid & _ & ->)]; [exact Hs|].
  simpl in Hid. injection Hid as <-.
  apply (rewritten_keeps_queue s _ id row (with_row_sent row)); auto.
Qed.

Lemma reservation_delete_keeps_queue s (r : Reservation.t) :
  queue_wf s -> queue_wf (snd (Reservation.delete s r)).
Proof.
  intros [Hids Huniq].
  unfold Reservation.delete, delete_from_reservations, execute_update.
  destruct (connected s); simpl; [|split; assumption].
  destruct (truthy_id _); simpl; [|split; assumption].
  unfold queue_wf, reservation_ids_distinct, unique_pending. simpl. split.
  - clear Huniq. unfold reservation_ids_distinct in Hids.
    induction (reservations s) as [|kv l IH]; simpl; [constructor|].
    simpl in Hids. apply NoDup_cons in Hids as [Hnotin Hnd].
    destruct (negb _); simpl; [|auto].
    apply NoDup_cons. split; [|auto].
    intros Hx. apply Hnotin. apply list_elem_of_In in Hx.
    apply in_map_iff in Hx as (kv' & Hk & Hin').
    apply filter_In in Hin' as [Hin' _].
    apply list_elem_of_In. rewrite <- Hk. apply in_map, Hin'.
  - intros b u. specialize (Huniq b u).
    etransitivity; [apply filter_length_le|exact Huniq].
Qed.

(** ** At most one active loan per book and user *)

Lemma issue_book_keeps_unique_active s b u d now :
  unique_active s -> unique_active (snd (Lending.issue_book s b u d now)).
Proof.
  intros Hs.
  destruct (issue_book_result s b u d now)
    as [(_ & _ & Hl & _)|(row & l & _ & _ & _ & Hsome & _ & Hl & _)].
  - unfold unique_active. rewrite Hl. exact Hs.
  - destruct (issue_book_Some s b u d now l Hsome) as (_ & _ & _ & Hnone & _).
    pose proof (proj1 (filter_map_to_list_nil _ _) Hnone) as Hfree.
    assert (Hclash : forall k r, lending s !! k = Some r -> l_status r = Active ->
                       l_book_id r = b -> l_user_id r = u -> False).
    { intros k r Hk Hst Hb Hu. specialize (Hfree k r Hk).
      unfold active_for in Hfree. simpl in Hfree.
      rewrite Hb, Hu, Hst, !Z.eqb_refl in Hfree. discriminate. }
    unfold unique_active. rewrite Hl. intros i j ri rj Hi Hj Hsi Hsj Hb Hu.
    apply lookup_insert_Some in Hi as [(<- & <-)|(Hni & Hi)];
      apply lookup_insert_Some in Hj as [(<- & <-)|(Hnj & Hj)]; simpl in *.
    + reflexivity.
    + exfalso. apply (Hclash j rj Hj Hsj); congruence.
    + exfalso. apply (Hclash i ri Hi Hsi); congruence.
    + apply (Hs i j ri rj); assumption.
Qed.

Lemma return_book_lending s id fine now :
  lending (snd (Lending.return_book s id fine now)) = lending s
  \/ exists row, lending s !! id = Some row /\ l_status row = Active /\
       lending (snd (Lending.return_book s id fine now))
       = alter (fun _ => returned_row row now fine) id (lending s).
Proof.
  destruct (return_book_result s id fine now)
    as [(_ & -> & _)
       |(row & _ & Hrow & Hst & [(_ & -> & _)|(b & _ & _ & _ & -> & _)])].
  - left. reflexivity.
  - right. exists row. auto.
  - right. exists row.
    destruct (process_next_reservation_frame
                (copy_restored s id row b now fine) (l_book_id row))
      as (_ & _ & _ & _ & -> & _).
    auto.
Qed.

Lemma return_book_keeps_unique_active s id fine now :
  unique_active s -> unique_active (snd (Lending.return_book s id fine now)).
Proof.
  intros Hs. unfold unique_active.
  destruct (return_book_lending s id fine now) as [->|(row & _ & _ & ->)]; [exact Hs|].
  intros i j ri rj Hi Hj Hsi Hsj Hb Hu.
  apply lookup_alter_Some in Hi as [(<- & x & _ & ->)|(_ & Hi)]; [discriminate|].
  apply lookup_alter_Some in Hj as [(<- & x & _ & ->)|(_ & Hj)]; [discriminate|].
  apply (Hs i j ri rj); assumption.
Qed.

Lemma return_book_reservations s id fine now :
  reservations (snd (Lending.return_book s id fine now)) = reservations s.
Proof.
  destruct (return_book_result s id fine now)
    as [(_ & -> & _)
       |(row & _ & _ & _ & [(_ & -> & _)|(b & _ & _ & _ & -> & _)])];
    try reflexivity.
  destruct (process_next_reservation_frame
              (copy_restored s id row b now fine) (l_book_id row))
    as (_ & _ & _ & _ & _ & _ & -> & _).
  reflexivity.
Qed.

(** ** Deleting a book, deactivating a user *)

Lemma existsb_false_In {A} (p : A -> bool) (l : list A) x :
  existsb p l = false -> In x l -> p x = false.
Proof.
  intros He Hin. destruct (p x) eqn:Hp; [|reflexivity].
  assert (existsb p l = true) by (apply existsb_exists; eauto). congruence.
Qed.

(** The ends of [Book.delete]: nothing changes, or the stored book, to
    which no lending or reservation row refers, is removed. *)
Lemma book_delete_result s (bk : Book.t) :
  snd (Book.delete s bk) = s
  \/ exists id, Book.book_id bk = Some id /\ id <> 0 /\ connected s = true /\
       is_Some (books s !! id) /\ book_referenced s id = false /\
       Book.delete s bk = (true, set_books (delete id (books s)) s).
Proof.
  unfold Book.delete, delete_from_books.
  destruct (connected s) eqn:Hc; simpl; [|left; reflexivity].
  destruct (Book.book_id bk) as [id|]; simpl; [|left; reflexivity].
  destruct (Z.eqb_spec id 0); simpl; [left; reflexivity|].
  destruct (positive_count _); [left; reflexivity|].
  destruct (positive_count _); [left; reflexivity|].
  destruct (books s !! id) as [row|] eqn:Hrow; [|left; reflexivity].
  destruct (book_referenced s id) eqn:Href; [left; reflexivity|].
  right. exists id. repeat split; eauto.
Qed.

(** The ends of [User.delete]: nothing changes, or the user's row is set
    inactive. *)
Lemma user_delete_result s (usr : User.t) :
  User.delete s usr = (false, usr, s)
  \/ exists id, User.user_id usr = Some id /\ id <> 0 /\ connected s = true /\
       positive_count (count_active_lending_of_user s (Some id)) = false /\
       User.delete s usr
       = (true, User.with_is_active usr false,
          set_users (alter set_inactive id (users s)) s).
Proof.
  unfold User.delete, update_user_inactive, execute_update.
  destruct (connected s) eqn:Hc; simpl; [|left; reflexivity].
  destruct (User.user_id usr) as [id|]; simpl; [|left; reflexivity].
  destruct (Z.eqb_spec id 0); simpl; [left; reflexivity|].
  destruct (positive_count _) eqn:Hp; [left; reflexivity|].
  right. exists id. repeat split; auto.
Qed.

Lemma book_delete_keeps_ledger s (bk : Book.t) :
  ledger_consistent s -> ledger_consistent (snd (Book.delete s bk)).
Proof.
  intros Hs.
  destruct (book_delete_result s bk) as [->|(id & _ & _ & _ & _ & Href & ->)];
    [exact Hs|].
  destruct Hs as [Hsum Hloans]. unfold ledger_consistent, active_loans_of. simpl. split.
  - intros b row Hb. apply lookup_delete_Some in Hb as [_ Hb]. apply (Hsum b row Hb).
  - intros i r Hi Hst. destruct (Hloans i r Hi Hst) as [Hne Hsome].
    split; [assumption|]. apply lookup_delete_is_Some. split; [|assumption].
    unfold book_referenced in Href. apply orb_false_elim in Href as [Href _].
    assert (Hrow : (l_book_id r =? id) = false).
    { apply (existsb_false_In _ _ (i, r) Href), list_elem_of_In,
        elem_of_map_to_list, Hi. }
    intros Heq. rewrite <- Heq, Z.eqb_refl in Hrow. discriminate.
Qed.

(** ** Which tables a desk operation can touch *)

Lemma reservation_tables s (r : Reservation.t) message :
  (books (snd (Reservation.cancel s r)) = books s /\
   lending (snd (Reservation.cancel s r)) = lending s) /\
  (books (snd (Reservation.fulfill s r)) = books s /\
   lending (snd (Reservation.fulfill s r)) = lending s) /\
  (books (snd (Reservation.notify_user s r message)) = books s /\
   lending (snd (Reservation.notify_user s r message)) = lending s) /\
  (books (snd (Reservation.delete s r)) = books s /\
   lending (snd (Reservation.delete s r)) = lending s).
Proof.
  split; [|split; [|split]].
  - destruct (cancel_result s r) as [(-> & _)|(id & _ & _ & _ & _ & ->)]; auto.
  - destruct (fulfill_result s r) as [(-> & _)|(id & _ & _ & _ & _ & ->)]; auto.
  - destruct (notify_user_result s r message)
      as [(-> & _)|(id & _ & _ & _ & ->)]; auto.
  - unfold Reservation.delete, delete_from_reservations, execute_update.
    destruct (connected s); simpl; [|auto]. destruct (truthy_id _); simpl; auto.
Qed.

Lemma desk_step_books_lending s o :
  match o with
  | DeskIssue _ _ _ _ | DeskReturn _ _ _ | DeskDeleteBook _ => True
  | _ => books (desk_step s o) = books s /\ lending (desk_step s o) = lending s
  end.
Proof.
  destruct o; simpl; try exact I.
  - destruct (create_reservation_result s book_id user_id now)
      as [(_ & ->)|(? & ? & _ & _ & _ & _ & _ & _ & _ & _ & ->)]; auto.
  - destruct (Reservation.get_by_id s reservation_id); [|auto].
    apply (reservation_tables s t None).
  - destruct (Reservation.get_by_id s reservation_id); [|auto].
    apply (reservation_tables s t None).
  - destruct (Reservation.get_by_id s reservation_id); [|auto].
    apply (reservation_tables s t message).
  - destruct (Reservation.get_by_id s reservation_id); [|auto].
    apply (reservation_tables s t None).
  - destruct (User.get_by_id s user_id) as [usr|]; [|auto].
    destruct (user_delete_result s usr) as [->|(id & _ & _ & _ & _ & ->)]; auto.
Qed.

Lemma desk_step_reservations s o :
  match o with
  | DeskReserve _ _ _ | DeskCancel _ | DeskFulfill _ | DeskNotify _ _
  | DeskDeleteReservation _ => True
  | _ => reservations (desk_step s o) = reservations s
  end.
Proof.
  destruct o; simpl; try exact I.
  - destruct (issue_book_result s book_id user_id loan_days now)
      as [(_ & _ & _ & _ & Hr & _)|(? & ? & _ & _ & _ & _ & _ & _ & _ & _ & Hr & _)];
      exact Hr.
  - apply return_book_reservations.
  - destruct (Book.get_by_id s book_id) as [bk|]; [|reflexivity].
    destruct (book_delete_result s bk) as [->|(id & _ & _ & _ & _ & _ & ->)];
      reflexivity.
  - destruct (User.get_by_id s user_id) as [usr|]; [|reflexivity].
    destruct (user_delete_result s usr) as [->|(id & _ & _ & _ & _ & ->)];
      reflexivity.
Qed.

Lemma desk_step_keeps_ledger s o :
  ledger_consistent s -> ledger_consistent (desk_step s o).
Proof.
  intros Hs. pose proof (desk_step_books_lending s o) as Hframe.
  destruct o; try (apply (ledger_consistent_same s); tauto); simpl.
  - apply issue_book_keeps_ledger, Hs.
  - apply return_book_keeps_ledger, Hs.
  - destruct (Book.get_by_id s book_id); [apply book_delete_keeps_ledger|]; exact Hs.
Qed.

Lemma unique_active_same s s' :
  lending s' = lending s -> unique_active s -> unique_active s'.
Proof. unfold unique_active. intros ->. tauto. Qed.

Lemma desk_step_keeps_unique_active s o :
  unique_active s -> unique_active (desk_step s o).
Proof.
  intros Hs. pose proof (desk_step_books_lending s o) as Hframe.
  destruct o; try (apply (unique_active_same s); tauto); simpl.
  - apply issue_book_keeps_unique_active, Hs.
  - apply return_book_keeps_unique_active, Hs.
  - destruct (Book.get_by_id s book_id) as [bk|]; [|exact Hs].
    destruct (book_delete_result s bk) as [->|(id & _ & _ & _ & _ & _ & ->)];
      exact Hs.
Qed.

Lemma desk_step_keeps_queue s o : queue_wf s -> queue_wf (desk_step s o).
Proof.
  intros Hs. pose proof (desk_step_reservations s o) as Hframe.
  destruct o; try (apply (queue_wf_same s); assumption); simpl.
  - apply create_reservation_keeps_queue, Hs.
  - destruct (Reservation.get_by_id s reservation_id) as [r|] eqn:Hr; [|exact Hs].
    apply reservation_get_by_id_Some in Hr as (_ & row & Hin & ->).
    apply cancel_keeps_queue; assumption.
  - destruct (Reservation.get_by_id s reservation_id) as [r|] eqn:Hr; [|exact Hs].
    apply reservation_get_by_id_Some in Hr as (_ & row & Hin & ->).
    apply fulfill_keeps_queue; assumption.
  - destruct (Reservation.get_by_id s reservation_id) as [r|] eqn:Hr; [|exact Hs].
    apply reservation_get_by_id_Some in Hr as (_ & row & Hin & ->).
    apply notify_user_keeps_queue; assumption.
  - destruct (Reservation.get_by_id s reservation_id) as [r|]; [|exact Hs].
    apply reservation_delete_keeps_queue, Hs.
Qed.

(** ** Invariants of the desk *)

Lemma one_copy_library_consistent : ledger_consistent one_copy_library.
Proof.
  split.
  - intros b row Hb. unfold one_copy_library in Hb. cbn [books] in Hb.
    apply lookup_singleton_Some in Hb as [<- <-].
    vm_compute. split; [reflexivity|discriminate].
  - intros i r Hi. unfold one_copy_library in Hi. cbn [lending] in Hi.
    rewrite lookup_empty in Hi. discriminate.
Qed.

Lemma no_copy_left_consistent : ledger_consistent no_copy_left.
Proof.
  split.
  - intros b row Hb. unfold no_copy_left in Hb. cbn [books] in Hb.
    apply lookup_singleton_Some in Hb as [<- <-].
    vm_compute. split; [reflexivity|discriminate].
  - intros i r Hi _. unfold no_copy_left in Hi. cbn [lending] in Hi.
    apply lookup_singleton_Some in Hi as [<- <-]. split; [discriminate|].
    unfold no_copy_left. cbn [books issued_row l_book_id].
    rewrite lookup_singleton_eq. eauto.
Qed.

(** X1. Every sequence of desk operations started in a state where the
    ledger agrees with the loans ends in such a state: for every stored
    book, [available_copies] plus the number of its active loans is
    [total_copies], no count is negative, and every active loan is of a
    stored book. *)
Theorem desk_run_keeps_ledger_consistent s ops :
  ledger_consistent s -> ledger_consistent (desk_run s ops).
Proof.
  revert s. unfold desk_run.
  induction ops as [|o ops IH]; intros s Hs; simpl; [exact Hs|].
  apply IH, desk_step_keeps_ledger, Hs.
Qed.

Lemma desk_run_keeps_ledger_consistent_witness :
  ledger_consistent (desk_run one_copy_library busy_day).
Proof.
  apply (desk_run_keeps_ledger_consistent one_copy_library busy_day).
  exact one_copy_library_consistent.
Defined.

(** X2. In a state where the ledger agrees with the loans, returning an
    active loan over a connection never stops half way: the loan row is
    rewritten as returned and the book's [available_copies] goes up by one;
    the call returns [True], or raises when the import inside
    [_process_next_reservation] does not resolve. It never returns
    [False]. *)
Theorem return_book_of_consistent_ledger_completes s id fine now row :
  ledger_consistent s -> connected s = true ->
  lending s !! id = Some row -> l_status row = Active ->
  fst (Lending.return_book s id fine now)
    = (if models_importable s then Returns true else Raises ModuleNotFoundError) /\
  lending (snd (Lending.return_book s id fine now)) !! id
    = Some (returned_row row now fine) /\
  exists b, books s !! l_book_id row = Some b /\
    available_of (snd (Lending.return_book s id fine now)) (l_book_id row)
      = Some (b_available_copies b + 1).
Proof.
  intros Hs Hc Hrow Hst.
  destruct (consistent_active_loan_has_room s id row Hs Hrow Hst)
    as (Hne & b & Hb & Hin).
  destruct (return_book_result s id fine now)
    as [(_ & _ & [Hd|[Hd|(row' & Hr' & Hd)]])
       |(row' & _ & Hr' & _ & [(_ & _ & Hbad)|(b' & Hb' & _ & _ & Hsnd & Hfst)])];
    try congruence.
  - rewrite Hrow in Hr'. injection Hr' as <-.
    destruct Hbad as [Hnone|(b' & Hb' & [Hz|Hout])]; [congruence|congruence|].
    rewrite Hb in Hb'. injection Hb' as <-. contradiction.
  - rewrite Hrow in Hr'. injection Hr' as <-.
    rewrite Hb in Hb'. injection Hb' as <-.
    split; [exact Hfst|]. rewrite Hsnd.
    destruct (process_next_reservation_frame
                (copy_restored s id row b now fine) (l_book_id row))
      as (_ & _ & Hbk & _ & Hl & _).
    unfold available_of. rewrite Hl, Hbk. simpl.
    rewrite !lookup_alter_eq, Hrow, Hb. simpl. eauto.
Qed.

Lemma return_book_of_consistent_ledger_completes_witness :
  fst (Lending.return_book no_copy_left 1 0 (date 2024 1 20)) = Returns true /\
  lending (snd (Lending.return_book no_copy_left 1 0 (date 2024 1 20))) !! 1
    = Some (returned_row (issued_row 1 1 14 (date 2024 1 1)) (date 2024 1 20) 0).
Proof.
  destruct (return_book_of_consistent_ledger_completes no_copy_left 1 0 (date 2024 1 20)
              (issued_row 1 1 14 (date 2024 1 1)) no_copy_left_consistent
              eq_refl eq_refl eq_refl) as (Hf & Hl & _).
  split; [exact Hf | exact Hl].
Defined.

Lemma one_copy_library_unique_active : unique_active one_copy_library.
Proof.
  intros i j ri rj Hi. unfold one_copy_library in Hi. cbn [lending] in Hi.
  rewrite lookup_empty in Hi. discriminate.
Qed.

(** X3. Every sequence of desk operations keeps at most one active loan per
    book and user. *)
Theorem desk_run_keeps_unique_active s ops :
  unique_active s -> unique_active (desk_run s ops).
Proof.
  revert s. unfold desk_run.
  induction ops as [|o ops IH]; intros s Hs; simpl; [exact Hs|].
  apply IH, desk_step_keeps_unique_active, Hs.
Qed.

Lemma desk_run_keeps_unique_active_witness :
  unique_active (desk_run one_copy_library busy_day).
Proof.
  apply (desk_run_keeps_unique_active one_copy_library busy_day).
  exact one_copy_library_unique_active.
Defined.

Lemma one_copy_library_queue_wf : queue_wf one_copy_library.
Proof.
  split.
  - unfold reservation_ids_distinct. simpl. constructor.
  - intros b u. simpl. lia.
Qed.

(** X4. Every sequence of desk operations started with distinct
    reservation ids and at most one pending reservation per book and user
    keeps both. *)
Theorem desk_run_keeps_unique_pending s ops :
  reservation_ids_distinct s -> unique_pending s ->
  reservation_ids_distinct (desk_run s ops) /\ unique_pending (desk_run s ops).
Proof.
  intros Hids Huniq. assert (Hs : queue_wf s) by (split; assumption).
  clear Hids Huniq. fold (queue_wf (desk_run s ops)).
  revert s Hs. unfold desk_run.
  induction ops as [|o ops IH]; intros s Hs; simpl; [exact Hs|].
  apply IH, desk_step_keeps_queue, Hs.
Qed.

Lemma desk_run_keeps_unique_pending_witness :
  reservation_ids_distinct (desk_run one_copy_library busy_day) /\
  unique_pending (desk_run one_copy_library busy_day).
Proof.
  apply (desk_run_keeps_unique_pending one_copy_library busy_day);
    apply one_copy_library_queue_wf.
Defined.

(** ** What a reservation and an issue require *)

Lemma filter_nil_forall {A} (p : A -> bool) (l : list A) x :
  List.filter p l = [] -> In x l -> p x = false.
Proof.
  intros Hnil Hin. destruct (p x) eqn:Hp; [|reflexivity].
  assert (H : In x (List.filter p l)) by (apply filter_In; auto).
  rewrite Hnil in H. destruct H.
Qed.

(** X5. [create_reservation] either returns [None] and leaves the state
    untouched, or returns the new reservation; in that case the manager was
    connected, the book is stored with no available copy, the user is stored
    and active, the user had neither a pending reservation nor an active
    loan of the book, and the only change is one pending, not yet notified
    row dated [now] appended to [reservations] under a rowid above all
    stored ones. *)
Theorem create_reservation_requirements s b u now :
  (fst (Reservation.create_reservation s b u now) = None ->
   snd (Reservation.create_reservation s b u now) = s)
  /\ (forall r, fst (Reservation.create_reservation s b u now) = Some r ->
      connected s = true /\
      (exists brow, books s !! b = Some brow /\ b_available_copies brow <= 0) /\
      (exists urow, users s !! u = Some urow /\ u_is_active urow = true) /\
      (forall kv, In kv (reservations s) ->
         r_book_id (snd kv) = b -> r_user_id (snd kv) = u -> r_status (snd kv) <> Pending) /\
      (forall i l, lending s !! i = Some l ->
         l_book_id l = b -> l_user_id l = u -> l_status l <> Active) /\
      r = {| Reservation.reservation_id := Some (next_reservation_id s);
             Reservation.book_id := b; Reservation.user_id := u;
             Reservation.reservation_date := now;
             Reservation.status := Pending;
             Reservation.notification_sent := false |} /\
      (forall kv, In kv (reservations s) -> fst kv < next_reservation_id s) /\
      reservations (snd (Reservation.create_reservation s b u now))
        = reservations s ++
          [(next_reservation_id s,
            {| r_book_id := b; r_user_id := u; r_reservation_date := now;
               r_status := Pending; r_notification_sent := false |})] /\
      books (snd (Reservation.create_reservation s b u now)) = books s /\
      lending (snd (Reservation.create_reservation s b u now)) = lending s /\
      users (snd (Reservation.create_reservation s b u now)) = users s /\
      notifications (snd (Reservation.create_reservation s b u now)) = notifications s).
Proof.
  destruct (create_reservation_result s b u now)
    as [(Hnone & Hs)
       |(brow & urow & Hc & Hb & Hav & Hu & Hact & Hp & Ha & Hsome & Hs)].
  - split; [intros _; exact Hs|]. intros r Hr. congruence.
  - split; [intros Hnone; congruence|].
    intros r Hr. rewrite Hsome in Hr. injection Hr as <-. rewrite Hs.
    split; [assumption|]. split; [eauto|]. split; [eauto|]. split; [|split].
    + intros kv Hin Hkb Hku Hst.
      pose proof (filter_nil_forall _ _ kv Hp Hin) as Hf.
      unfold pending_for in Hf. rewrite Hkb, Hku, Hst, !Z.eqb_refl in Hf. discriminate.
    + intros i l Hi Hlb Hlu Hst.
      pose proof (proj1 (filter_map_to_list_nil _ _) Ha i l Hi) as Hf.
      unfold active_for in Hf. simpl in Hf.
      rewrite Hlb, Hlu, Hst, !Z.eqb_refl in Hf. discriminate.
    + split; [reflexivity|]. split; [|simpl; auto].
      intros kv Hin. pose proof (max_rowid_upper _ _ Hin).
      unfold next_reservation_id. lia.
Qed.

Lemma create_reservation_requirements_witness :
  exists r, fst (Reservation.create_reservation no_copy_left 1 2 (date 2024 1 2)) = Some r /\
    reservations (snd (Reservation.create_reservation no_copy_left 1 2 (date 2024 1 2)))
    = [(1, {| r_book_id := 1; r_user_id := 2; r_reservation_date := date 2024 1 2;
              r_status := Pending; r_notification_sent := false |})].
Proof.
  eexists. split; [vm_compute; reflexivity|].
  exact (proj1 (proj2 (proj2 (proj2 (proj2 (proj2 (proj2 (proj2
           (proj2 (create_reservation_requirements no_copy_left 1 2 (date 2024 1 2))
              _ eq_refl))))))))).
Defined.

(** X6. When [issue_book] returns a loan, the manager was connected, the
    book's key is not 0, the user is stored and active and had no active
    loan of the book; the loan is active, issued [now], due [loan_days] days
    later, with no fine; and reading it back by its id gives the record
    that was returned. *)
Theorem issue_book_requirements s b u d now l :
  fst (Lending.issue_book s b u d now) = Some l ->
  connected s = true /\ b <> 0 /\
  (exists urow, users s !! u = Some urow /\ u_is_active urow = true) /\
  (forall i r, lending s !! i = Some r ->
     l_book_id r = b -> l_user_id r = u -> l_status r <> Active) /\
  l = {| Lending.lending_id := Some (next_lending_id s);
         Lending.book_id := b; Lending.user_id := u;
         Lending.issue_date := now;
         Lending.due_date := Some (now + d * us_per_day);
         Lending.return_date := None; Lending.fine_amount := 0%Q;
         Lending.status := Active |} /\
  Lending.get_by_id (snd (Lending.issue_book s b u d now)) (next_lending_id s) = Some l.
Proof.
  intros Hsome.
  destruct (issue_book_Some s b u d now l Hsome) as (Hc & Hne & Hu & Hnone & Hl).
  split; [assumption|]. split; [assumption|]. split; [assumption|]. split; [|split].
  - intros i r Hi Hb Hus Hst.
    pose proof (proj1 (filter_map_to_list_nil _ _) Hnone i r Hi) as Hf.
    unfold active_for in Hf. simpl in Hf.
    rewrite Hb, Hus, Hst, !Z.eqb_refl in Hf. discriminate.
  - exact Hl.
  - destruct (issue_book_result s b u d now)
      as [(Hnone' & _)|(row & l' & _ & _ & _ & _ & _ & Hlend & _ & _ & _ & _ & Hc' & _)];
      [congruence|].
    rewrite (lending_get_by_id_lookup _ _ (issued_row b u d now)).
    + rewrite Hl. reflexivity.
    + congruence.
    + rewrite Hlend. apply lookup_insert_eq.
Qed.

Lemma issue_book_requirements_witness :
  Lending.get_by_id (snd (Lending.issue_book one_copy_library 1 1 14 (date 2024 1 1))) 1
  = Some {| Lending.lending_id := Some 1;
            Lending.book_id := 1; Lending.user_id := 1;
            Lending.issue_date := date 2024 1 1;
            Lending.due_date := Some (date 2024 1 1 + 14 * us_per_day);
            Lending.return_date := None; Lending.fine_amount := 0%Q;
            Lending.status := Active |}.
Proof.
  exact (proj2 (proj2 (proj2 (proj2 (proj2
    (issue_book_requirements one_copy_library 1 1 14 (date 2024 1 1) _ eq_refl)))))).
Defined.

(** ** Cancelling, fulfilling and notifying a stored reservation *)

Lemma rewritten_first id r' (l : list (Z * reservation_row)) r0 :
  In (id, r0) l ->
  exists rest, List.filter (fun kv => fst kv =? id) (rewritten id r' l) = (id, r') :: rest.
Proof.
  induction l as [|kv l IH]; simpl; [tauto|].
  intros Hin. destruct (Z.eqb_spec (fst kv) id) as [Hk|Hk]; simpl.
  - rewrite Hk, Z.eqb_refl. eauto.
  - destruct (Z.eqb_spec (fst kv) id); [contradiction|].
    destruct Hin as [->|Hin]; [contradiction Hk; reflexivity|]. apply IH, Hin.
Qed.

Lemma get_by_id_rewritten s s' id r0 r' :
  connected s' = true -> In (id, r0) (reservations s) ->
  reservations s' = rewritten id r' (reservations s) ->
  Reservation.get_by_id s' id = Some (Reservation._load_from_dict (id, r')).
Proof.
  intros Hc Hin Hs'.
  unfold Reservation.get_by_id, select_reservation_by_id, execute_query.
  rewrite Hc, Hs'. simpl.
  destruct (rewritten_first id r' _ r0 Hin) as [rest ->]. reflexivity.
Qed.

(** X7. [cancel] and [fulfill] act only on a pending reservation: on a
    record whose status is not pending they return [False] and change
    nothing. On a stored pending reservation each succeeds and stores the
    new status, after which the reservation read back is the one returned,
    and cancelling or fulfilling it again is refused with the state
    unchanged. *)
Theorem cancel_and_fulfill_are_final s :
  (forall r, Reservation.status r <> Pending ->
     Reservation.cancel s r = (false, r, s) /\ Reservation.fulfill s r = (false, r, s))
  /\ (forall id r, Reservation.get_by_id s id = Some r -> id <> 0 ->
        Reservation.status r = Pending ->
        (let '(ok, r1, s1) := Reservation.cancel s r in
         ok = true /\ r1 = Reservation.with_status r Cancelled /\
         Reservation.get_by_id s1 id = Some r1 /\
         Reservation.cancel s1 r1 = (false, r1, s1) /\
         Reservation.fulfill s1 r1 = (false, r1, s1))
        /\
        (let '(ok, r1, s1) := Reservation.fulfill s r in
         ok = true /\ r1 = Reservation.with_status r Fulfilled /\
         Reservation.get_by_id s1 id = Some r1 /\
         Reservation.cancel s1 r1 = (false, r1, s1) /\
         Reservation.fulfill s1 r1 = (false, r1, s1))).
Proof.
  assert (Hrefuse : forall s0 r, Reservation.status r <> Pending ->
            Reservation.cancel s0 r = (false, r, s0) /\
            Reservation.fulfill s0 r = (false, r, s0)).
  { intros s0 r Hst. split.
    - destruct (cancel_result s0 r) as [(H & _)|(? & _ & _ & _ & Hp & _)];
        [exact H|contradiction].
    - destruct (fulfill_result s0 r) as [(H & _)|(? & _ & _ & _ & Hp & _)];
        [exact H|contradiction]. }
  split; [apply Hrefuse|].
  intros id r Hget Hne Hst.
  apply reservation_get_by_id_Some in Hget as (Hc & row & Hin & ->).
  split.
  - destruct (cancel_result s (Reservation._load_from_dict (id, row)))
      as [(_ & [Hd|[Hd|Hd]])|(id' & _ & Hid & _ & _ & ->)].
    + congruence.
    + simpl in Hd. destruct (Z.eqb_spec id 0); [contradiction|discriminate].
    + contradiction.
    + simpl in Hid. injection Hid as <-.
      split; [reflexivity|]. split; [reflexivity|]. split.
      * refine (get_by_id_rewritten s _ id row (with_row_status row Cancelled) _ Hin _);
          [exact Hc|reflexivity].
      * apply Hrefuse. discriminate.
  - destruct (fulfill_result s (Reservation._load_from_dict (id, row)))
      as [(_ & [Hd|[Hd|Hd]])|(id' & _ & Hid & _ & _ & ->)].
    + congruence.
    + simpl in Hd. destruct (Z.eqb_spec id 0); [contradiction|discriminate].
    + contradiction.
    + simpl in Hid. injection Hid as <-.
      split; [reflexivity|]. split; [reflexivity|]. split.
      * refine (get_by_id_rewritten s _ id row (with_row_status row Fulfilled) _ Hin _);
          [exact Hc|reflexivity].
      * apply Hrefuse. discriminate.
Qed.

Lemma cancel_and_fulfill_are_final_witness :
  let '(ok, r1, s1) :=
    Reservation.cancel one_waiting
      (Reservation._load_from_dict (1, reserved_row 1 2 (date 2024 1 2))) in
  ok = true /\
  r1 = Reservation.with_status
         (Reservation._load_from_dict (1, reserved_row 1 2 (date 2024 1 2))) Cancelled /\
  Reservation.get_by_id s1 1 = Some r1 /\
  Reservation.cancel s1 r1 = (false, r1, s1) /\
  Reservation.fulfill s1 r1 = (false, r1, s1).
Proof.
  apply (proj1 (proj2 (cancel_and_fulfill_are_final one_waiting) 1
                  (Reservation._load_from_dict (1, reserved_row 1 2 (date 2024 1 2)))
                  eq_refl ltac:(discriminate) eq_refl)).
Defined.

(** X8. The pending check of [fulfill] and [cancel] reads the record, not
    the stored row: with a record of a pending reservation loaded before the
    reservation was cancelled, [fulfill] still succeeds afterwards, and the
    stored status goes from cancelled to fulfilled. *)
Theorem stale_record_overrides_cancel s id r :
  Reservation.get_by_id s id = Some r -> id <> 0 -> Reservation.status r = Pending ->
  let s1 := snd (Reservation.cancel s r) in
  (Reservation.status <$> Reservation.get_by_id s1 id) = Some Cancelled /\
  let '(ok, r2, s2) := Reservation.fulfill s1 r in
  ok = true /\
  (Reservation.status <$> Reservation.get_by_id s2 id) = Some Fulfilled.
Proof.
  intros Hget Hne Hst s1.
  apply reservation_get_by_id_Some in Hget as (Hc & row & Hin & ->).
  subst s1.
  destruct (cancel_result s (Reservation._load_from_dict (id, row)))
    as [(_ & [Hd|[Hd|Hd]])|(id' & _ & Hid & _ & _ & Hcancel)].
  - congruence.
  - simpl in Hd. destruct (Z.eqb_spec id 0); [contradiction|discriminate].
  - contradiction.
  - simpl in Hid. injection Hid as <-. rewrite Hcancel. cbn [snd].
    set (s1 := set_reservations _ s).
    assert (Hc1 : connected s1 = true) by exact Hc.
    assert (Hget1 : Reservation.get_by_id s1 id
                    = Some (Reservation._load_from_dict
                              (id, with_row_status row Cancelled))).
    { refine (get_by_id_rewritten s s1 id row (with_row_status row Cancelled) Hc1 Hin _).
      reflexivity. }
    rewrite Hget1. split; [reflexivity|].
    apply reservation_get_by_id_Some in Hget1 as (_ & row1 & Hin1 & Hrow1).
    injection Hrow1 as _ _ _ Hstat _. 
    destruct (fulfill_result s1 (Reservation._load_from_dict (id, row)))
      as [(_ & [Hd|[Hd|Hd]])|(id' & _ & Hid & _ & _ & ->)].
    + congruence.
    + simpl in Hd. destruct (Z.eqb_spec id 0); [contradiction|discriminate].
    + contradiction.
    + simpl in Hid. injection Hid as <-. split; [reflexivity|].
      set (s2 := set_reservations _ s1).
      assert (Hget2 : Reservation.get_by_id s2 id
                      = Some (Reservation._load_from_dict
                                (id, with_row_status row Fulfilled))).
      { refine (get_by_id_rewritten s1 s2 id row1 (with_row_status row Fulfilled)
                  Hc1 Hin1 _). reflexivity. }
      rewrite Hget2. reflexivity.
Qed.

Lemma stale_record_overrides_cancel_witness :
  let r := Reservation._load_from_dict (1, reserved_row 1 2 (date 2024 1 2)) in
  let s1 := snd (Reservation.cancel one_waiting r) in
  (Reservation.status <$> Reservation.get_by_id s1 1) = Some Cancelled /\
  let '(ok, r2, s2) := Reservation.fulfill s1 r in
  ok = true /\
  (Reservation.status <$> Reservation.get_by_id s2 1) = Some Fulfilled.
Proof.
  apply (stale_record_overrides_cancel one_waiting 1
           (Reservation._load_from_dict (1, reserved_row 1 2 (date 2024 1 2)))
           eq_refl ltac:(discriminate) eq_refl).
Defined.

(** X9. [notify_user] on a stored reservation (id not 0) over a connection
    returns [True], appends exactly one notification of type 'reservation'
    addressed to the reservation's holder, carrying the given message when
    it is not empty, and stores [notification_sent = True]: the reservation
    read back is the record with the flag set, its status as before. Books
    and loans are untouched. *)
Theorem notify_user_sets_flag s id r message :
  Reservation.get_by_id s id = Some r -> id <> 0 ->
  let '(ok, r1, s1) := Reservation.notify_user s r message in
  ok = true /\
  r1 = Reservation.with_notification_sent r true /\
  Reservation.get_by_id s1 id = Some r1 /\
  (exists nid msg,
     notifications s1
     = notifications s ++
       [(nid, {| n_user_id := Reservation.user_id r; n_message := msg;
                 n_type := ReservationNotice |})] /\
     forall c m, message = Some (String c m) -> msg = String c m) /\
  books s1 = books s /\ lending s1 = lending s.
Proof.
  intros Hget Hne.
  apply reservation_get_by_id_Some in Hget as (Hc & row & Hin & ->).
  destruct (notify_user_result s (Reservation._load_from_dict (id, row)) message)
    as [(_ & [Hd|Hd])|(id' & _ & Hid & _ & ->)].
  - congruence.
  - simpl in Hd. destruct (Z.eqb_spec id 0); [contradiction|discriminate].
  - simpl in Hid. injection Hid as <-.
    split; [reflexivity|]. split; [reflexivity|]. split; [|split].
    + refine (get_by_id_rewritten s _ id row (with_row_sent row) _ Hin _);
        [exact Hc|reflexivity].
    + eexists _, _. split; [reflexivity|]. intros c m ->. reflexivity.
    + split; reflexivity.
Qed.

Lemma notify_user_sets_flag_witness :
  let '(ok, r1, s1) :=
    Reservation.notify_user one_waiting
      (Reservation._load_from_dict (1, reserved_row 1 2 (date 2024 1 2)))
      (Some "Come and get it"%string) in
  ok = true /\
  r1 = Reservation.with_notification_sent
         (Reservation._load_from_dict (1, reserved_row 1 2 (date 2024 1 2))) true /\
  Reservation.get_by_id s1 1 = Some r1 /\
  (exists nid msg,
     notifications s1
     = notifications one_waiting ++
       [(nid, {| n_user_id := 2; n_message := msg; n_type := ReservationNotice |})] /\
     forall c m, Some "Come and get it"%string = Some (String c m) -> msg = String c m) /\
  books s1 = books one_waiting /\ lending s1 = lending one_waiting.
Proof.
  apply (notify_user_sets_flag one_waiting 1
           (Reservation._load_from_dict (1, reserved_row 1 2 (date 2024 1 2)))
           (Some "Come and get it"%string) eq_refl ltac:(discriminate)).
Defined.

(** ** The queue *)

(** X10. Over a connection and with the import resolving,
    [_process_next_reservation] notifies the holder of the reservation
    [get_next_in_queue] returns, which is a stored pending reservation of
    the book such that none has an earlier date; when
    [get_next_in_queue] returns [None], nobody is notified. *)
Theorem promotion_notifies_next_in_queue s b :
  connected s = true -> models_importable s = true ->
  match Reservation.get_next_in_queue s b with
  | Some r =>
      Reservation.book_id r = b /\ Reservation.status r = Pending /\
      (exists id, Reservation.reservation_id r = Some id /\
                  In (id, Reservation.to_row r) (reservations s)) /\
      (forall kv, In kv (reservations s) -> r_book_id (snd kv) = b ->
         r_status (snd kv) = Pending ->
         Reservation.reservation_date r <= r_reservation_date (snd kv)) /\
      exists nid msg,
        notifications (snd (Lending._process_next_reservation s b))
        = notifications s ++
          [(nid, {| n_user_id := Reservation.user_id r; n_message := msg;
                    n_type := ReservationNotice |})]
  | None =>
      notifications (snd (Lending._process_next_reservation s b)) = notifications s
  end.
Proof.
  intros Hc Hm.
  unfold Reservation.get_next_in_queue, select_next_pending, execute_query.
  rewrite Hc. simpl.
  destruct (earliest (List.filter (pending_of_book b) (reservations s)))
    as [[id row]|] eqn:E.
  - destruct (process_next_reservation_notifies_earliest s b (id, row) Hc Hm E)
      as (Hin & Hb & Hst & Hmin & nid & msg & Hn).
    simpl in *. split; [assumption|]. split; [assumption|].
    split; [exists id; split; [reflexivity|]; destruct row; exact Hin|].
    split; [exact Hmin|]. eauto.
  - unfold Lending._process_next_reservation, select_next_pending, execute_query.
    rewrite Hm, Hc, E. reflexivity.
Qed.

Lemma promotion_notifies_next_in_queue_witness :
  match Reservation.get_next_in_queue one_waiting 1 with
  | Some r =>
      Reservation.book_id r = 1 /\ Reservation.status r = Pending /\
      (exists id, Reservation.reservation_id r = Some id /\
                  In (id, Reservation.to_row r) (reservations one_waiting)) /\
      (forall kv, In kv (reservations one_waiting) -> r_book_id (snd kv) = 1 ->
         r_status (snd kv) = Pending ->
         Reservation.reservation_date r <= r_reservation_date (snd kv)) /\
      exists nid msg,
        notifications (snd (Lending._process_next_reservation one_waiting 1))
        = notifications one_waiting ++
          [(nid, {| n_user_id := Reservation.user_id r; n_message := msg;
                    n_type := ReservationNotice |})]
  | None =>
      notifications (snd (Lending._process_next_reservation one_waiting 1))
      = notifications one_waiting
  end.
Proof.
  apply (promotion_notifies_next_in_queue one_waiting 1 eq_refl eq_refl).
Defined.

Lemma filter_false_nil {A} (p : A -> bool) (l : list A) :
  (forall x, In x l -> p x = false) -> List.filter p l = [].
Proof.
  induction l as [|x l IH]; intros H; simpl; [reflexivity|].
  rewrite (H x (or_introl eq_refl)). apply IH. intros y Hy. apply H. right. exact Hy.
Qed.

Lemma short_list_is_singleton {A} (l : list A) x :
  (length l <= 1)%nat -> In x l -> l = [x].
Proof.
  destruct l as [|y [|z l]]; simpl; intros Hlen Hin; [tauto| |lia].
  destruct Hin as [->|[]]. reflexivity.
Qed.

(** X11. When no holder has two pending reservations of the same book, the
    holder of the reservation [get_next_in_queue] returns is told position 1
    by [get_queue_position]. *)
Theorem next_in_queue_has_position_one s b r :
  unique_pending s ->
  Reservation.get_next_in_queue s b = Some r ->
  Reservation.get_queue_position s b (Reservation.user_id r) = Some 1.
Proof.
  intros Huniq.
  unfold Reservation.get_next_in_queue, Reservation.get_queue_position,
    select_next_pending, select_queue_position, execute_query.
  destruct (connected s); simpl; [|discriminate].
  destruct (earliest (List.filter (pending_of_book b) (reservations s)))
    as [[id row]|] eqn:E; [|discriminate].
  intros [= <-]. simpl.
  destruct (earliest_is_least _ _ E) as [Hin Hmin].
  apply filter_In in Hin as [Hin Hp].
  assert (Hown : List.filter (pending_for b (r_user_id row)) (reservations s) = [(id, row)]).
  { apply short_list_is_singleton; [apply Huniq|].
    apply filter_In. split; [assumption|].
    unfold pending_of_book in Hp. apply andb_prop in Hp as [Hb Hst].
    unfold pending_for. simpl in *. rewrite Hb, Hst, Z.eqb_refl. reflexivity. }
  unfold own_reservation_date. rewrite Hown. simpl.
  rewrite filter_false_nil; [reflexivity|].
  intros kv Hkv. destruct (pending_of_book b kv) eqn:Hpk; [|reflexivity]. simpl.
  apply Z.ltb_ge. apply (Hmin kv). apply filter_In. auto.
Qed.

Lemma two_in_line_unique_pending : unique_pending two_in_line.
Proof.
  apply (create_reservation_keeps_queue one_waiting 1 3 (date 2024 1 3)).
  apply (create_reservation_keeps_queue reading_room 1 2 (date 2024 1 2)).
  split; [constructor|]. intros b u. simpl. lia.
Qed.

Lemma next_in_queue_has_position_one_witness :
  Reservation.get_queue_position two_in_line 1 2 = Some 1.
Proof.
  apply (next_in_queue_has_position_one two_in_line 1
           (Reservation._load_from_dict (1, reserved_row 1 2 (date 2024 1 2)))
           two_in_line_unique_pending eq_refl).
Defined.

(** X12. A reservation made after all pending reservations of the book
    joins the end of its queue: when [create_reservation] succeeds at a time
    later than the dates of the book's pending reservations, the new holder's
    [get_queue_position] is their number plus one. *)
Theorem new_reservation_joins_the_end s b u now r :
  fst (Reservation.create_reservation s b u now) = Some r ->
  (forall kv, In kv (reservations s) -> r_book_id (snd kv) = b ->
     r_status (snd kv) = Pending -> r_reservation_date (snd kv) < now) ->
  Reservation.get_queue_position (snd (Reservation.create_reservation s b u now)) b u
  = Some (Z.of_nat (length (List.filter (pending_of_book b) (reservations s))) + 1).
Proof.
  intros Hsome Hearlier.
  destruct (create_reservation_result s b u now)
    as [(Hnone & _)|(brow & urow & Hc & _ & _ & _ & _ & Hp & _ & _ & ->)];
    [congruence|].
  unfold Reservation.get_queue_position, select_queue_position, execute_query,
    own_reservation_date.
  assert (Hpf : pending_for b u (next_reservation_id s, reserved_row b u now) = true)
    by (unfold pending_for; simpl; rewrite !Z.eqb_refl; reflexivity).
  assert (Hpb : pending_of_book b (next_reservation_id s, reserved_row b u now) = true)
    by (unfold pending_of_book; simpl; rewrite Z.eqb_refl; reflexivity).
  simpl. rewrite Hc. simpl.
  rewrite !List.filter_app, Hp. simpl.
  rewrite Hpf, Hpb. simpl. rewrite Z.ltb_irrefl. simpl.
  rewrite app_nil_r. do 4 f_equal.
  apply filter_ext_in. intros kv Hkv.
  destruct (pending_of_book b kv) eqn:Hpk; [|reflexivity]. simpl.
  apply Z.ltb_lt. unfold pending_of_book in Hpk. apply andb_prop in Hpk as [Hb Hst].
  apply Z.eqb_eq in Hb.
  apply Hearlier; try assumption.
  destruct (r_status (snd kv)); simpl in Hst; congruence.
Qed.

Lemma new_reservation_joins_the_end_witness :
  Reservation.get_queue_position two_in_line 1 3 = Some 2.
Proof.
  refine (new_reservation_joins_the_end one_waiting 1 3 (date 2024 1 3)
            (Reservation._load_from_dict (2, reserved_row 1 3 (date 2024 1 3))) _ _).
  - vm_compute. reflexivity.
  - intros kv [<-|[]] _ _. vm_compute. reflexivity.
Defined.

(** X13. [Reservation.delete] on a stored reservation (id not 0) over a
    connection returns [True] and removes it: reading that id afterwards
    gives [None], every other id reads as before, and books and loans are
    untouched. *)
Theorem reservation_delete_removes s id r :
  Reservation.get_by_id s id = Some r -> id <> 0 ->
  let '(ok, s1) := Reservation.delete s r in
  ok = true /\
  Reservation.get_by_id s1 id = None /\
  (forall id', id' <> id -> Reservation.get_by_id s1 id' = Reservation.get_by_id s id') /\
  books s1 = books s /\ lending s1 = lending s.
Proof.
  intros Hget Hne.
  apply reservation_get_by_id_Some in Hget as (Hc & row & Hin & ->).
  unfold Reservation.delete, delete_from_reservations, execute_update.
  rewrite Hc. simpl. destruct (Z.eqb_spec id 0); [contradiction|]. simpl.
  split; [reflexivity|].
  unfold Reservation.get_by_id, select_reservation_by_id, execute_query. simpl.
  rewrite Hc. simpl. split; [|split; [|split; reflexivity]].
  - rewrite filter_false_nil; [reflexivity|].
    intros kv Hkv. apply filter_In in Hkv as [_ Hk].
    destruct (fst kv =? id); [discriminate|reflexivity].
  - intros id' Hne'.
    assert (Heq : List.filter (fun kv => fst kv =? id')
                    (List.filter (fun kv => negb (fst kv =? id)) (reservations s))
                  = List.filter (fun kv => fst kv =? id') (reservations s)).
    { clear Hin. induction (reservations s) as [|kv l IH]; simpl; [reflexivity|].
      destruct (Z.eqb_spec (fst kv) id) as [Hk|Hk]; simpl.
      - destruct (Z.eqb_spec (fst kv) id'); [congruence|]. apply IH.
      - rewrite IH. reflexivity. }
    rewrite Heq. reflexivity.
Qed.

Lemma reservation_delete_removes_witness :
  let '(ok, s1) :=
    Reservation.delete two_in_line
      (Reservation._load_from_dict (1, reserved_row 1 2 (date 2024 1 2))) in
  ok = true /\
  Reservation.get_by_id s1 1 = None /\
  (forall id', id' <> 1 -> Reservation.get_by_id s1 id' = Reservation.get_by_id two_in_line id') /\
  books s1 = books two_in_line /\ lending s1 = lending two_in_line.
Proof.
  apply (reservation_delete_removes two_in_line 1
           (Reservation._load_from_dict (1, reserved_row 1 2 (date 2024 1 2)))
           eq_refl ltac:(discriminate)).
Defined.

(** X14. [issue_book] and [return_book] never write to [reservations]:
    after any sequence of issues and returns every reservation row is as
    before, so a reservation is neither fulfilled nor flagged as notified by
    the circulation path, even when its holder borrows the book. *)
Theorem issue_and_return_leave_reservations s ops :
  reservations (run s ops) = reservations s.
Proof.
  revert s. unfold run. induction ops as [|o ops IH]; intros s; simpl; [reflexivity|].
  rewrite IH. destruct o; simpl.
  - apply (desk_step_reservations s (DeskIssue book_id user_id loan_days now)).
  - apply return_book_reservations.
Qed.

(** ** Deleting a book *)

Lemma filter_length_pos {A} (p : A -> bool) (l : list A) x :
  In x l -> p x = true -> (0 < length (List.filter p l))%nat.
Proof.
  intros Hin Hp.
  assert (H : In x (List.filter p l)) by (apply filter_In; auto).
  destruct (List.filter p l); [destruct H|simpl; lia].
Qed.

Lemma positive_count_filter {A} (p : A -> bool) (l : list A) x :
  In x l -> p x = true ->
  positive_count (Some [Z.of_nat (length (List.filter p l))]) = true.
Proof.
  intros Hin Hp. pose proof (filter_length_pos p l x Hin Hp).
  simpl. apply Z.ltb_lt. lia.
Qed.

Lemma book_delete_cases s (bk : Book.t) :
  Book.delete s bk = (false, s)
  \/ (exists id, Book.book_id bk = Some id /\ books s !! id = None /\
         Book.delete s bk = (true, s))
  \/ (exists id, Book.book_id bk = Some id /\ book_referenced s id = false /\
         Book.delete s bk = (true, set_books (delete id (books s)) s)).
Proof.
  unfold Book.delete, delete_from_books.
  destruct (connected s) eqn:Hc; simpl; [|left; reflexivity].
  destruct (Book.book_id bk) as [id|]; simpl; [|left; reflexivity].
  destruct (Z.eqb_spec id 0); simpl; [left; reflexivity|].
  destruct (positive_count _); [left; reflexivity|].
  destruct (positive_count _); [left; reflexivity|].
  destruct (books s !! id) as [row|] eqn:Hrow; [|right; left; eauto].
  destruct (book_referenced s id) eqn:Href; [left; reflexivity|].
  right. right. eauto.
Qed.

(** X15. [Book.delete] refuses (returns [False], state unchanged) a book
    that has an active loan or a pending reservation, and whenever it
    returns [False] the state is unchanged. When it returns [True] for a
    stored book, no lending row of any status and no reservation row
    referred to the book (the foreign keys forbid the deletion otherwise),
    the book can no longer be read, and the other tables are untouched. *)
Theorem book_delete_only_unreferenced s (bk : Book.t) :
  (fst (Book.delete s bk) = false -> snd (Book.delete s bk) = s)
  /\ (forall i r, lending s !! i = Some r -> l_status r = Active ->
        Book.book_id bk = Some (l_book_id r) -> Book.delete s bk = (false, s))
  /\ (forall kv, In kv (reservations s) -> r_status (snd kv) = Pending ->
        Book.book_id bk = Some (r_book_id (snd kv)) -> Book.delete s bk = (false, s))
  /\ (forall id, fst (Book.delete s bk) = true -> Book.book_id bk = Some id ->
        is_Some (books s !! id) ->
        (forall i r, lending s !! i = Some r -> l_book_id r <> id) /\
        (forall kv, In kv (reservations s) -> r_book_id (snd kv) <> id) /\
        books (snd (Book.delete s bk)) = delete id (books s) /\
        Book.get_by_id (snd (Book.delete s bk)) id = None /\
        lending (snd (Book.delete s bk)) = lending s /\
        reservations (snd (Book.delete s bk)) = reservations s /\
        users (snd (Book.delete s bk)) = users s).
Proof.
  split; [|split; [|split]].
  - destruct (book_delete_result s bk) as [Hs|(id & _ & _ & _ & _ & _ & ->)];
      [intros _; exact Hs|discriminate].
  - intros i r Hi Hst Hid. unfold Book.delete.
    destruct (negb (connected s) || negb (truthy_id (Book.book_id bk))) eqn:Hg;
      [reflexivity|].
    apply orb_false_elim in Hg as [Hc _]. apply negb_false_iff in Hc.
    unfold count_active_lending_of_book, execute_query. rewrite Hc, Hid. cbv iota.
    rewrite (positive_count_filter _ _ (i, r)); [reflexivity| |].
    + apply list_elem_of_In, elem_of_map_to_list, Hi.
    + simpl. rewrite Z.eqb_refl, Hst. reflexivity.
  - intros kv Hin Hst Hid. unfold Book.delete.
    destruct (negb (connected s) || negb (truthy_id (Book.book_id bk))) eqn:Hg;
      [reflexivity|].
    apply orb_false_elim in Hg as [Hc _]. apply negb_false_iff in Hc.
    destruct (positive_count (count_active_lending_of_book s (Book.book_id bk)));
      [reflexivity|].
    unfold count_pending_reservations_of_book, execute_query. rewrite Hc, Hid. cbv iota.
    rewrite (positive_count_filter _ _ kv); [reflexivity|assumption|].
    simpl. rewrite Z.eqb_refl, Hst. reflexivity.
  - intros id Hok Hid [row Hrow].
    destruct (book_delete_cases s bk)
      as [Hd|[(id' & Hid' & Hnone & _)|(id' & Hid' & Href & Hdel)]].
    + rewrite Hd in Hok. discriminate.
    + congruence.
    + rewrite Hid in Hid'. injection Hid' as <-. rewrite Hdel. simpl.
      unfold book_referenced in Href. apply orb_false_elim in Href as [Hl Hr].
      split; [|split; [|split; [|split; [|auto]]]].
      * intros i r Hi Heq.
        assert (Hf : (l_book_id r =? id) = false).
        { apply (existsb_false_In _ _ (i, r) Hl), list_elem_of_In,
            elem_of_map_to_list, Hi. }
        rewrite Heq, Z.eqb_refl in Hf. discriminate.
      * intros kv Hin Heq.
        pose proof (existsb_false_In _ _ kv Hr Hin) as Hf. simpl in Hf.
        rewrite Heq, Z.eqb_refl in Hf. discriminate.
      * reflexivity.
      * unfold Book.get_by_id, select_book_by_id, execute_query. simpl.
        rewrite lookup_delete_eq. destruct (connected s); reflexivity.
Qed.

Lemma book_delete_only_unreferenced_witness :
  Book.delete no_copy_left
    (Book._load_from_dict
       (1, {| b_title := "Dune"; b_total_copies := 1; b_available_copies := 0 |}))
  = (false, no_copy_left)
  /\ Book.get_by_id
       (snd (Book.delete one_copy_library
               (Book._load_from_dict
                  (1, {| b_title := "Dune"; b_total_copies := 1;
                         b_available_copies := 1 |})))) 1 = None.
Proof.
  split.
  - apply (proj1 (proj2 (book_delete_only_unreferenced no_copy_left _))
             1 (issued_row 1 1 14 (date 2024 1 1))); reflexivity.
  - apply (proj2 (proj2 (proj2 (book_delete_only_unreferenced one_copy_library _))) 1);
      [reflexivity|reflexivity|].
    unfold one_copy_library. cbn [books]. rewrite lookup_singleton_eq. eauto.
Defined.

(** ** Deactivating a user *)

(** X16. [User.delete] refuses (returns [False], nothing changed) a user
    who has an active loan. When it returns [True] it has changed nothing
    but the [users] table, and from then on [issue_book] and
    [create_reservation] for that user return [None] and leave the state as
    it is; the user's reservations stay as they were. *)
Theorem user_delete_blocks_circulation s (usr : User.t) :
  (forall i r, lending s !! i = Some r -> l_status r = Active ->
     User.user_id usr = Some (l_user_id r) -> User.delete s usr = (false, usr, s))
  /\ (fst (fst (User.delete s usr)) = true ->
      let s1 := snd (User.delete s usr) in
      User.is_active (snd (fst (User.delete s usr))) = false /\
      books s1 = books s /\ lending s1 = lending s /\
      reservations s1 = reservations s /\ notifications s1 = notifications s /\
      exists id, User.user_id usr = Some id /\
        forall b d now,
          Lending.issue_book s1 b id d now = (None, s1) /\
          Reservation.create_reservation s1 b id now = (None, s1)).
Proof.
  split.
  - intros i r Hi Hst Hid. unfold User.delete.
    destruct (negb (connected s) || negb (truthy_id (User.user_id usr))) eqn:Hg;
      [reflexivity|].
    apply orb_false_elim in Hg as [Hc _]. apply negb_false_iff in Hc.
    unfold count_active_lending_of_user, execute_query. rewrite Hc, Hid. cbv iota.
    rewrite (positive_count_filter _ _ (i, r)); [reflexivity| |].
    + apply list_elem_of_In, elem_of_map_to_list, Hi.
    + simpl. rewrite Z.eqb_refl, Hst. reflexivity.
  - destruct (user_delete_result s usr) as [->|(id & Hid & _ & Hc & _ & ->)];
      [discriminate|].
    intros _. cbn [fst snd]. repeat (split; [reflexivity|]).
    exists id. split; [assumption|]. intros b d now.
    set (s1 := set_users _ s).
    assert (Huser : forall usr', User.get_by_id s1 id = Some usr' ->
                      User.is_active usr' = false).
    { intros usr' Hget. apply user_get_by_id_Some in Hget as (_ & row & Hrow & ->).
      subst s1. simpl in Hrow. rewrite lookup_alter_eq in Hrow.
      destruct (users s !! id); simpl in Hrow; [|discriminate].
      injection Hrow as <-. reflexivity. }
    split.
    + unfold Lending.issue_book.
      destruct (negb (connected s1)); [reflexivity|].
      destruct (Book.get_by_id s1 b); [|reflexivity].
      destruct (negb (Book.is_available t)); [reflexivity|].
      destruct (User.get_by_id s1 id) as [usr'|] eqn:Hu; [|reflexivity].
      rewrite (Huser usr' eq_refl). reflexivity.
    + unfold Reservation.create_reservation.
      destruct (negb (connected s1)); [reflexivity|].
      destruct (Book.get_by_id s1 b); [|reflexivity].
      destruct (User.get_by_id s1 id) as [usr'|] eqn:Hu; [|reflexivity].
      rewrite (Huser usr' eq_refl). reflexivity.
Qed.

Lemma user_delete_blocks_circulation_witness :
  User.delete no_copy_left (User._load_from_dict (1, {| u_is_active := true |}))
  = (false, User._load_from_dict (1, {| u_is_active := true |}), no_copy_left)
  /\ (let s1 :=
        snd (User.delete no_copy_left
               (User._load_from_dict (2, {| u_is_active := true |}))) in
      books s1 = books no_copy_left /\ lending s1 = lending no_copy_left /\
      exists id, Some 2 = Some id /\
        forall b d now,
          Lending.issue_book s1 b id d now = (None, s1) /\
          Reservation.create_reservation s1 b id now = (None, s1)).
Proof.
  split.
  - apply (proj1 (user_delete_blocks_circulation no_copy_left _)
             1 (issued_row 1 1 14 (date 2024 1 1))); reflexivity.
  - destruct (proj2 (user_delete_blocks_circulation no_copy_left
                       (User._load_from_dict (2, {| u_is_active := true |}))) eq_refl)
      as (_ & Hb & Hl & _ & _ & Hblock).
    exact (conj Hb (conj Hl Hblock)).
Defined.

(** ** Fines over time *)

Lemma days_overdue_nonneg l now : 0 <= Lending.days_overdue l now.
Proof.
  unfold Lending.days_overdue, Lending.is_overdue.
  destruct (Lending.due_date l) as [due|]; [|lia].
  destruct (negb (lending_status_eqb (Lending.status l) Active)); simpl; [lia|].
  destruct (Z.ltb_spec due now); simpl; [|lia].
  apply td_days_nonneg. lia.
Qed.

Lemma days_overdue_mono l now now' :
  now <= now' -> Lending.days_overdue l now <= Lending.days_overdue l now'.
Proof.
  intros Hle. unfold Lending.days_overdue, Lending.is_overdue.
  destruct (Lending.due_date l) as [due|]; [|lia].
  destruct (negb (lending_status_eqb (Lending.status l) Active)); simpl; [lia|].
  destruct (Z.ltb_spec due now); destruct (Z.ltb_spec due now'); simpl; try lia.
  - unfold td_days, us_per_day. apply Z.div_le_mono; lia.
  - apply td_days_nonneg. lia.
Qed.

(** X17. For a rate that is not negative, [days_overdue] and
    [calculate_fine] are never negative and never decrease as time passes;
    and until a full day has passed after the due date the fine is 0. *)
Theorem calculate_fine_grows_with_time l now now' rate :
  (0 <= rate)%Q -> now <= now' ->
  0 <= Lending.days_overdue l now <= Lending.days_overdue l now' /\
  (0 <= Lending.calculate_fine l now rate)%Q /\
  (Lending.calculate_fine l now rate <= Lending.calculate_fine l now' rate)%Q /\
  (forall due, Lending.due_date l = Some due -> now < due + us_per_day ->
     Lending.days_overdue l now = 0 /\ Lending.calculate_fine l now rate = 0%Q).
Proof.
  intros Hrate Hle.
  pose proof (days_overdue_nonneg l now) as Hnn.
  pose proof (days_overdue_mono l now now' Hle) as Hmono.
  assert (Hfine : forall t, (0 <= Lending.calculate_fine l t rate)%Q).
  { intros t. unfold Lending.calculate_fine.
    destruct (Z.ltb_spec 0 (Lending.days_overdue l t)); [|apply Qle_refl].
    apply Qmult_le_0_compat; [|assumption].
    change 0%Q with (inject_Z 0). rewrite <- Zle_Qle. lia. }
  split; [lia|]. split; [apply Hfine|]. split.
  - unfold Lending.calculate_fine at 1.
    destruct (Z.ltb_spec 0 (Lending.days_overdue l now)); [|apply Hfine].
    unfold Lending.calculate_fine.
    destruct (Z.ltb_spec 0 (Lending.days_overdue l now')); [|lia].
    apply Qmult_le_compat_r; [|assumption].
    rewrite <- Zle_Qle. lia.
  - intros due Hdue Hlt.
    assert (Hz : Lending.days_overdue l now = 0).
    { unfold Lending.days_overdue, Lending.is_overdue. rewrite Hdue.
      destruct (negb (lending_status_eqb (Lending.status l) Active)); simpl;
        [reflexivity|].
      destruct (Z.ltb_spec due now); simpl; [|reflexivity].
      unfold td_days, us_per_day in *. apply Z.div_small. lia. }
    split; [exact Hz|]. unfold Lending.calculate_fine. rewrite Hz. reflexivity.
Qed.

Lemma calculate_fine_grows_with_time_witness :
  (Lending.calculate_fine (loan_record (date 2024 1 10) None Active) (date 2024 1 12) (1 # 2)
   <= Lending.calculate_fine (loan_record (date 2024 1 10) None Active) (date 2024 1 15)
        (1 # 2))%Q /\
  Lending.calculate_fine (loan_record (date 2024 1 10) None Active)
    (date 2024 1 11 - 1) (1 # 2) = 0%Q.
Proof.
  destruct (calculate_fine_grows_with_time (loan_record (date 2024 1 10) None Active)
              (date 2024 1 12) (date 2024 1 15) (1 # 2))
    as (_ & _ & Hmono & _); [discriminate|vm_compute; discriminate|].
  destruct (calculate_fine_grows_with_time (loan_record (date 2024 1 10) None Active)
              (date 2024 1 11 - 1) (date 2024 1 11) (1 # 2))
    as (_ & _ & _ & Hgrace); [discriminate|vm_compute; discriminate|].
  split; [exact Hmono|].
  apply (Hgrace (date 2024 1 10) eq_refl). vm_compute. reflexivity.
Defined.

(** ** Issue, then return *)

(** X18. When the counts are within bounds and the import inside
    [_process_next_reservation] resolves, returning a loan that
    [issue_book] has just made succeeds and puts the [books] table back
    exactly as it was before the issue; the loan stays on record as
    returned. *)
Theorem issue_then_return_restores_books s b u d now fine now' l :
  copies_in_bounds s -> models_importable s = true ->
  fst (Lending.issue_book s b u d now) = Some l ->
  let s1 := snd (Lending.issue_book s b u d now) in
  exists id, Lending.lending_id l = Some id /\
    fst (Lending.return_book s1 id fine now') = Returns true /\
    books (snd (Lending.return_book s1 id fine now')) = books s /\
    lending (snd (Lending.return_book s1 id fine now')) !! id
      = Some {| l_book_id := b; l_user_id := u; l_issue_date := now;
                l_due_date := now + d * us_per_day;
                l_return_date := Some now'; l_fine_amount := fine;
                l_status := Returned |}.
Proof.
  intros Hbounds Hm Hsome s1.
  destruct (issue_book_Some s b u d now l Hsome) as (Hc & Hne & _ & _ & Hl).
  destruct (issue_book_result s b u d now)
    as [(Hnone & _)
       |(row & l' & Hrow & Hpos & _ & _ & _ & Hlend & Hbooks & _ & _ & _ & Hc1 & Hm1)];
    [congruence|].
  fold s1 in Hlend, Hbooks, Hc1, Hm1.
  exists (next_lending_id s). split; [rewrite Hl; reflexivity|].
  pose proof (Hbounds b row Hrow) as Hin. simpl in Hin.
  assert (Hloan : lending s1 !! next_lending_id s = Some (issued_row b u d now))
    by (rewrite Hlend; apply lookup_insert_eq).
  assert (Hbook : books s1 !! b
                  = Some (set_available (b_available_copies row - 1) row))
    by (rewrite Hbooks, lookup_alter_eq, Hrow; reflexivity).
  destruct (return_book_result s1 (next_lending_id s) fine now')
    as [(_ & _ & [Hd|[Hd|(row' & Hr' & Hd)]])
       |(row' & _ & Hr' & _ & [(_ & _ & Hbad)|(b' & Hb' & _ & _ & Hsnd & Hfst)])];
    try congruence.
  - rewrite Hloan in Hr'. injection Hr' as <-. contradiction Hd. reflexivity.
  - exfalso. rewrite Hloan in Hr'. injection Hr' as <-. simpl in Hbad.
    destruct Hbad as [Hnone|(b' & Hb' & [Hz|Hout])]; [congruence|congruence|].
    rewrite Hbook in Hb'. injection Hb' as <-.
    unfold set_available in Hout. simpl in Hout. apply Hout. lia.
  - rewrite Hloan in Hr'. injection Hr' as <-. simpl in Hb'.
    rewrite Hbook in Hb'. injection Hb' as <-.
    split; [rewrite Hfst, Hm1, Hm; reflexivity|].
    rewrite Hsnd.
    destruct (process_next_reservation_frame
                (copy_restored s1 (next_lending_id s) (issued_row b u d now)
                   (set_available (b_available_copies row - 1) row) now' fine)
                (l_book_id (issued_row b u d now)))
      as (_ & _ & Hbk & _ & Hld & _).
    rewrite Hbk, Hld. simpl. split.
    + rewrite Hbooks. apply map_eq. intros i.
      destruct (decide (b = i)) as [<-|Hni].
      * rewrite !lookup_alter_eq, Hrow. simpl.
        destruct row. unfold set_available. simpl. do 2 f_equal. lia.
      * rewrite !lookup_alter_ne by assumption. reflexivity.
    + rewrite lookup_alter_eq, Hloan. reflexivity.
Qed.

Lemma one_copy_library_in_bounds : copies_in_bounds one_copy_library.
Proof.
  unfold copies_in_bounds, one_copy_library. cbn [books].
  apply map_Forall_singleton. simpl. lia.
Qed.

Lemma issue_then_return_restores_books_witness :
  exists id,
    Some 1 = Some id /\
    fst (Lending.return_book
           (snd (Lending.issue_book one_copy_library 1 1 14 (date 2024 1 1)))
           id 0 (date 2024 1 9)) = Returns true /\
    books (snd (Lending.return_book
                  (snd (Lending.issue_book one_copy_library 1 1 14 (date 2024 1 1)))
                  id 0 (date 2024 1 9))) = books one_copy_library.
Proof.
  destruct (issue_then_return_restores_books one_copy_library 1 1 14 (date 2024 1 1)
              0 (date 2024 1 9) _ one_copy_library_in_bounds
              eq_refl eq_refl) as (id & Hid & Hf & Hb & _).
  exists id. split; [exact Hid|]. split; [exact Hf|exact Hb].
Defined.

(** ** Queue positions and dates *)

Lemma filter_length_mono {A} (p q : A -> bool) (l : list A) :
  (forall y, In y l -> p y = true -> q y = true) ->
  (length (List.filter p l) <= length (List.filter q l))%nat.
Proof.
  induction l as [|z l IH]; intros Hpq; simpl; [lia|].
  assert (IH' := IH (fun w Hw => Hpq w (or_intror Hw))).
  pose proof (Hpq z (or_introl eq_refl)) as Hz.
  destruct (p z), (q z); simpl; lia.
Qed.

Lemma filter_length_lt {A} (p q : A -> bool) (l : list A) x :
  (forall y, In y l -> p y = true -> q y = true) ->
  In x l -> q x = true -> p x = false ->
  (length (List.filter p l) < length (List.filter q l))%nat.
Proof.
  intros Hpq Hin Hq Hp.
  induction l as [|y l IH]; simpl; [destruct Hin|].
  pose proof (filter_length_mono p q l (fun w Hw => Hpq w (or_intror Hw))) as Hle.
  destruct Hin as [->|Hin].
  - rewrite Hp, Hq. simpl. lia.
  - specialize (IH (fun w Hw => Hpq w (or_intror Hw)) Hin).
    pose proof (Hpq y (or_introl eq_refl)) as Hy.
    destruct (p y), (q y); simpl; lia.
Qed.

Lemma own_date_of_pending s b kv :
  unique_pending s -> In kv (reservations s) ->
  r_book_id (snd kv) = b -> r_status (snd kv) = Pending ->
  own_reservation_date s b (r_user_id (snd kv)) = Some (r_reservation_date (snd kv)).
Proof.
  intros Huniq Hin Hb Hst. unfold own_reservation_date.
  rewrite (short_list_is_singleton _ kv (Huniq b (r_user_id (snd kv)))); [reflexivity|].
  apply filter_In. split; [assumption|].
  unfold pending_for. rewrite Hb, Hst, !Z.eqb_refl. reflexivity.
Qed.

(** X19. When no holder has two pending reservations of the same book,
    queue positions follow reservation dates: of two pending reservations of
    a book, the holder of the earlier one is told a position that is at
    least 1 and strictly smaller; and holders whose reservations carry the
    same date are told the same position. *)
Theorem queue_positions_follow_dates s b kv1 kv2 :
  connected s = true -> unique_pending s ->
  In kv1 (reservations s) -> In kv2 (reservations s) ->
  r_book_id (snd kv1) = b -> r_book_id (snd kv2) = b ->
  r_status (snd kv1) = Pending -> r_status (snd kv2) = Pending ->
  exists p1 p2,
    Reservation.get_queue_position s b (r_user_id (snd kv1)) = Some p1 /\
    Reservation.get_queue_position s b (r_user_id (snd kv2)) = Some p2 /\
    1 <= p1 /\
    (r_reservation_date (snd kv1) < r_reservation_date (snd kv2) -> p1 < p2) /\
    (r_reservation_date (snd kv1) = r_reservation_date (snd kv2) -> p1 = p2).
Proof.
  intros Hc Huniq Hin1 Hin2 Hb1 Hb2 Hst1 Hst2.
  unfold Reservation.get_queue_position, select_queue_position, execute_query.
  rewrite Hc. simpl.
  rewrite (own_date_of_pending s b kv1 Huniq Hin1 Hb1 Hst1).
  rewrite (own_date_of_pending s b kv2 Huniq Hin2 Hb2 Hst2).
  eexists _, _. split; [reflexivity|]. split; [reflexivity|].
  split; [lia|]. split.
  - intros Hlt. simpl.
    assert (H : Z.of_nat (length (List.filter
                   (fun kv => pending_of_book b kv
                              && (r_reservation_date (snd kv) <? r_reservation_date (snd kv1)))
                   (reservations s)))
                 < Z.of_nat (length (List.filter
                   (fun kv => pending_of_book b kv
                              && (r_reservation_date (snd kv) <? r_reservation_date (snd kv2)))
                   (reservations s)))).
    { apply Nat2Z.inj_lt. apply (filter_length_lt _ _ _ kv1); [|assumption| |].
      - intros y _ Hy. apply andb_prop in Hy as [Hp Hd]. rewrite Hp. simpl.
        apply Z.ltb_lt in Hd. apply Z.ltb_lt. lia.
      - unfold pending_of_book. rewrite Hb1, Hst1, Z.eqb_refl. simpl.
        apply Z.ltb_lt. exact Hlt.
      - rewrite Z.ltb_irrefl. apply andb_false_r. }
    lia.
  - intros ->. reflexivity.
Qed.

Lemma queue_positions_follow_dates_witness :
  exists p1 p2,
    Reservation.get_queue_position two_in_line 1 2 = Some p1 /\
    Reservation.get_queue_position two_in_line 1 3 = Some p2 /\
    1 <= p1 /\ p1 < p2.
Proof.
  destruct (queue_positions_follow_dates two_in_line 1
              (1, reserved_row 1 2 (date 2024 1 2)) (2, reserved_row 1 3 (date 2024 1 3))
              eq_refl two_in_line_unique_pending
              (or_introl eq_refl) (or_intror (or_introl eq_refl))
              eq_refl eq_refl eq_refl eq_refl)
    as (p1 & p2 & H1 & H2 & Hge & Hlt & _).
  exists p1, p2. split; [exact H1|]. split; [exact H2|]. split; [exact Hge|].
  apply Hlt. vm_compute. reflexivity.
Defined.

(** ** Promotion, repeated *)

Lemma process_next_reservation_eq s b x :
  connected s = true -> models_importable s = true ->
  earliest (List.filter (pending_of_book b) (reservations s)) = Some x ->
  Lending._process_next_reservation s b = (Returns tt, promoted s b x).
Proof.
  intros Hc Hm E.
  unfold Lending._process_next_reservation, select_next_pending, execute_query,
    insert_into_notifications, execute_update.
  rewrite Hm, Hc, E. reflexivity.
Qed.

(** X20. Promotion does not take the notified reservation out of the queue:
    over a connection and with the import resolving, two successive
    [_process_next_reservation] calls for a book somebody waits for notify
    the same holder twice, with the same message. *)
Theorem promotion_repeats_itself s b r :
  connected s = true -> models_importable s = true ->
  Reservation.get_next_in_queue s b = Some r ->
  let s1 := snd (Lending._process_next_reservation s b) in
  let s2 := snd (Lending._process_next_reservation s1 b) in
  Reservation.get_next_in_queue s1 b = Some r /\
  exists id1 id2 msg,
    id1 < id2 /\
    notifications s2
    = notifications s ++
      [(id1, {| n_user_id := Reservation.user_id r; n_message := msg;
                n_type := ReservationNotice |});
       (id2, {| n_user_id := Reservation.user_id r; n_message := msg;
                n_type := ReservationNotice |})].
Proof.
  intros Hc Hm Hnext s1 s2.
  unfold Reservation.get_next_in_queue, select_next_pending, execute_query in Hnext.
  rewrite Hc in Hnext. simpl in Hnext.
  destruct (earliest (List.filter (pending_of_book b) (reservations s)))
    as [x|] eqn:E; [|discriminate].
  injection Hnext as <-.
  pose proof (process_next_reservation_eq s b x Hc Hm E) as Hs1.
  assert (Hs1' : s1 = promoted s b x) by (subst s1; rewrite Hs1; reflexivity).
  pose proof (process_next_reservation_eq (promoted s b x) b x Hc Hm E) as Hs2.
  assert (Hs2' : s2 = promoted (promoted s b x) b x)
    by (subst s2; rewrite Hs1', Hs2; reflexivity).
  split.
  - unfold Reservation.get_next_in_queue, select_next_pending, execute_query.
    rewrite Hs1'. simpl. rewrite Hc, E. reflexivity.
  - exists (next_notification_id s), (next_notification_id (promoted s b x)). eexists.
    split.
    + unfold next_notification_id at 2. simpl. lia.
    + rewrite Hs2'. simpl. rewrite <- app_assoc. reflexivity.
Qed.

Lemma promotion_repeats_itself_witness :
  map (fun kv => n_user_id (snd kv))
    (notifications
       (snd (Lending._process_next_reservation
               (snd (Lending._process_next_reservation two_in_line 1)) 1)))
  = [2; 2].
Proof.
  destruct (promotion_repeats_itself two_in_line 1
              (Reservation._load_from_dict (1, reserved_row 1 2 (date 2024 1 2)))
              eq_refl eq_refl eq_refl) as (_ & id1 & id2 & msg & _ & ->).
  reflexivity.
Defined.

(** ** Reading a loan and saving it back *)

(** X21. Saving a loan record exactly as [get_by_id] returned it succeeds
    and leaves the state as it was. *)
Theorem lending_load_save_round_trip s id l :
  Lending.get_by_id s id = Some l -> Lending.save s l = (true, l, s).
Proof.
  intros Hget. apply lending_get_by_id_Some in Hget as (Hc & row & Hrow & ->).
  unfold Lending.save, update_lending, execute_update.
  rewrite Hc. simpl.
  assert (Hsame : alter (fun _ => {| l_book_id := l_book_id row;
                                     l_user_id := l_user_id row;
                                     l_issue_date := l_issue_date row;
                                     l_due_date := l_due_date row;
                                     l_return_date := l_return_date row;
                                     l_fine_amount := l_fine_amount row;
                                     l_status := l_status row |}) id (lending s)
                  = lending s).
  { apply map_eq. intros i. rewrite lookup_alter.
    destruct (decide (id = i)) as [<-|_]; [|reflexivity].
    rewrite Hrow. destruct row. reflexivity. }
  rewrite Hsame. destruct s. reflexivity.
Qed.

Lemma lending_load_save_round_trip_witness :
  Lending.save no_copy_left
    (Lending._load_from_dict (1, issued_row 1 1 14 (date 2024 1 1)))
  = (true, Lending._load_from_dict (1, issued_row 1 1 14 (date 2024 1 1)), no_copy_left).
Proof.
  apply (lending_load_save_round_trip no_copy_left 1). reflexivity.
Defined.
